(** * Pluggable plugin manager: registry store, loader and asset protocol

    A shallow embedding of

    - [packages/main/src/pluggable/pluginMgr/store.ts]
      ([getPlugin], [getAllPlugins], [getActivePlugins], [removePlugin],
      [addPlugin], [persistPlugins], [installPlugin], [confirmInstall],
      [setConfirmInstall]) and
    - [packages/main/src/pluggable/pluginMgr/index.ts]
      ([registerPluginProtocol], [usePlugins], [loadPlugin]).

    JavaScript objects that the code uses as dictionaries (the [plugins]
    register, the own properties of a plugin) are finite maps from property
    names to values; keys are taken not to collide with the members that
    every object inherits from [Object.prototype] ([__proto__],
    [hasOwnProperty], ...), while a property that hides a method of the
    [Plugin] class is accounted for where the code calls the method
    ([subscribe] in [addPlugin]); the order in which a map lists its entries
    stands for the insertion order of the object.  Module-level variables, the file system and the exceptions of
    the code are threaded through an explicit state-and-error monad; the
    state survives a [throw], as it does in the program.  [async] functions
    run to completion, one at a time. *)

From Stdlib Require Import Ascii String ZArith.
From stdpp Require Import gmap strings list fin_maps pretty.

Local Open Scope string_scope.
Local Open Scope Z_scope.

(** ** Values *)

(** A JSON value, as [JSON.parse] produces it.  The entries of an object are
    listed in iteration order and their keys are pairwise distinct.  Numbers
    are restricted to integers. *)
#[warnings="-register-all"]
Inductive Json : Type :=
  | JNull
  | JBool (b : bool)
  | JNum (n : Z)
  | JStr (s : string)
  | JArr (items : list Json)
  | JObj (entries : list (string * Json)).

(** The functions a plugin can hold as listeners. *)
Inductive Callback : Type :=
  | CbPersistPlugins
  | CbOther (tag : string).

(** A property value of an in-memory plugin: plain data, or the table of
    listener callbacks (an object whose properties are functions). *)
Inductive Value : Type :=
  | VJson (j : Json)
  | VCallbacks (cbs : list Callback).

(** The own enumerable properties of an object.  An absent key reads as
    [undefined]. *)
Abbreviation Obj := (gmap string Value).

#[global] Instance Callback_eq_dec : EqDecision Callback.
Proof. solve_decision. Defined.

(** JavaScript truthiness ([ToBoolean]); [None] is [undefined]. *)
Definition truthyJ (v : option Json) : bool :=
  match v with
  | None => false
  | Some JNull => false
  | Some (JBool b) => b
  | Some (JNum n) => negb (n =? 0)
  | Some (JStr s) => negb (String.eqb s "")
  | Some (JArr _) => true
  | Some (JObj _) => true
  end.

Definition truthy (v : option Value) : bool :=
  match v with
  | None => false
  | Some (VJson j) => truthyJ (Some j)
  | Some (VCallbacks _) => true
  end.

(** [Array.prototype.join]: [null] items print as the empty string. *)
Fixpoint join (sep : string) (l : list string) : string :=
  match l with
  | [] => ""
  | [x] => x
  | x :: rest => x +:+ sep +:+ join sep rest
  end.

(** [ToString] on JSON values. *)
Fixpoint toStringJ (j : Json) : string :=
  match j with
  | JNull => "null"
  | JBool true => "true"
  | JBool false => "false"
  | JNum n => pretty n
  | JStr s => s
  | JArr items =>
      join "," (map (fun x => match x with JNull => "" | _ => toStringJ x end) items)
  | JObj _ => "[object Object]"
  end.

(** [ToPropertyKey]: the string under which [o[v] = ...] stores. *)
Definition toKey (v : option Value) : string :=
  match v with
  | None => "undefined"
  | Some (VJson j) => toStringJ j
  | Some (VCallbacks _) => "[object Object]"
  end.

(** What [JSON.parse (JSON.stringify v)] gives for a property value:
    function-valued properties are omitted, so a table of callbacks
    serialises as the empty object. *)
Definition toJson (v : Value) : Json :=
  match v with
  | VJson j => j
  | VCallbacks _ => JObj []
  end.

(** First binding of a key in an entry list. *)
Fixpoint assoc (k : string) (l : list (string * Json)) : option Json :=
  match l with
  | [] => None
  | (k', v) :: rest => if String.eqb k k' then Some v else assoc k rest
  end.

Fixpoint chars (s : string) : list Json :=
  match s with
  | EmptyString => []
  | String a rest => JStr (String a EmptyString) :: chars rest
  end.

Definition indexed (l : list Json) : list (string * Json) :=
  imap (fun i x => (pretty i, x)) l.

(** The pairs visited by [for (const key in j)] with [j[key]]: the entries of
    an object, the indices of an array or of a string, nothing for the other
    primitives. *)
Definition forIn (j : Json) : list (string * Json) :=
  match j with
  | JObj entries => entries
  | JArr items => indexed items
  | JStr s => indexed (chars s)
  | _ => []
  end.

(** ** Exceptions and the monad *)

Inductive Exn : Type :=
  | Error (msg : string)        (* [new Error(msg)] *)
  | TypeError (msg : string)
  | SyntaxError
  | SystemError (code : string) (* errors of the [fs] module *)
  | NotConfigured
  | InstallRejected
  | FetchFailed.

Inductive Res (A : Type) : Type :=
  | Ok (a : A)
  | Throw (e : Exn).
Arguments Ok {A} a.
Arguments Throw {A} e.

(** Property read [j.k]; reading a property of [null] throws. *)
Definition getProp (j : Json) (k : string) : Res (option Json) :=
  match j with
  | JNull => Throw (TypeError "Cannot read properties of null")
  | JObj entries => Ok (assoc k entries)
  | JArr items =>
      if String.eqb k "length" then Ok (Some (JNum (Z.of_nat (length items))))
      else Ok (assoc k (indexed items))
  | JStr s =>
      if String.eqb k "length" then Ok (Some (JNum (Z.of_nat (String.length s))))
      else Ok (assoc k (indexed (chars s)))
  | _ => Ok None
  end.

(** ** Paths (Node's POSIX [path] module) *)

Fixpoint split_on (c : Ascii.ascii) (s : string) : list string :=
  match s with
  | EmptyString => [""]
  | String a rest =>
      if Ascii.eqb a c then "" :: split_on c rest
      else match split_on c rest with
           | h :: t => String a h :: t
           | [] => [String a ""]
           end
  end.

Definition slash : Ascii.ascii := "/"%char.

(** One segment of [normalizeString], on a stack of kept segments (last
    segment first). *)
Definition normStep (allowAboveRoot : bool) (stack : list string) (seg : string)
    : list string :=
  if String.eqb seg "" || String.eqb seg "." then stack
  else if String.eqb seg ".." then
    match stack with
    | top :: below =>
        if String.eqb top ".." then
          (if allowAboveRoot then ".." :: stack else stack)
        else below
    | [] => if allowAboveRoot then [".."] else []
    end
  else seg :: stack.

Definition normSegments (allowAboveRoot : bool) (segs : list string) : list string :=
  rev (foldl (normStep allowAboveRoot) [] segs).

Definition normalizeString (path : string) (allowAboveRoot : bool) : string :=
  join "/" (normSegments allowAboveRoot (split_on slash path)).

Definition startsWithSlash (p : string) : bool :=
  match p with
  | String a _ => Ascii.eqb a slash
  | EmptyString => false
  end.

Fixpoint endsWithSlash (p : string) : bool :=
  match p with
  | EmptyString => false
  | String a EmptyString => Ascii.eqb a slash
  | String _ rest => endsWithSlash rest
  end.

(** [path.normalize]. *)
Definition normalize (path : string) : string :=
  if String.eqb path "" then "."
  else
    let isAbsolute := startsWithSlash path in
    let trailingSeparator := endsWithSlash path in
    let body := normalizeString path (negb isAbsolute) in
    if String.eqb body "" then
      (if isAbsolute then "/" else if trailingSeparator then "./" else ".")
    else
      (if isAbsolute then "/" else "") +:+ body +:+
      (if trailingSeparator then "/" else "").

(** The right-to-left scan of [path.resolve]: arguments are prepended until
    the path is absolute; an argument that is reached and is not a string
    ([None]) throws. *)
Fixpoint resolveScan (args : list (option string)) (acc : string) : Res (string * bool) :=
  match args with
  | [] => Ok (acc, false)
  | a :: before =>
      match a with
      | None => Throw (TypeError "The path argument must be of type string")
      | Some p =>
          if String.eqb p "" then resolveScan before acc
          else if startsWithSlash p then Ok (p +:+ "/" +:+ acc, true)
          else resolveScan before (p +:+ "/" +:+ acc)
      end
  end.

(** [path.resolve(...args)] in working directory [cwd]. *)
Definition resolve (cwd : string) (args : list (option string)) : Res string :=
  match resolveScan (rev args) "" with
  | Throw e => Throw e
  | Ok (p, true) => Ok ("/" +:+ normalizeString p false)
  | Ok (p, false) =>
      let p' := if String.eqb cwd "" then p else cwd +:+ "/" +:+ p in
      if startsWithSlash cwd then Ok ("/" +:+ normalizeString p' false)
      else
        let r := normalizeString p' true in
        Ok (if String.eqb r "" then "." else r)
  end.

(** ** The file system *)

(** The text of a file: the JSON text of a document, or text that
    [JSON.parse] rejects. *)
Inductive Content : Type :=
  | Doc (j : Json)
  | Garbage.

(** Regular files and folders by path, and the paths handed to
    [writeFileSync] so far (latest first), whether or not the write took
    place.  Paths are kept in absolute normal form, the form in which they
    reach the disk when the plugins root is absolute. *)
Record FS : Type := mkFS {
  files : gmap string Content;
  folders : gset string;
  writes : list string
}.

(** [p] is [dir] itself or lies below it. *)
Definition under (dir p : string) : bool :=
  String.eqb p dir ||
  String.prefix (if endsWithSlash dir then dir else dir +:+ "/") p.

(** The folder that holds [p]: [p] without its last segment. *)
Definition parentOf (p : string) : string :=
  let parent := join "/" (removelast (split_on slash p)) in
  if String.eqb parent "" then (if startsWithSlash p then "/" else ".")
  else parent.

(** A file can be written at [p]: [p] is no folder and the folder that
    holds it is there. *)
Definition canWrite (p : string) (fs : FS) : bool :=
  negb (bool_decide (p ∈ folders fs)) && bool_decide (parentOf p ∈ folders fs).

Definition existsSync (p : string) (fs : FS) : bool :=
  bool_decide (is_Some (files fs !! p)) || bool_decide (p ∈ folders fs).

(** [writeFileSync(p, text, 'utf8')]: the whole file is replaced; a path
    that is a folder, or whose folder is missing, is an error. *)
Definition writeFileSync (p : string) (c : Content) (fs : FS) : Res unit * FS :=
  if bool_decide (p ∈ folders fs) then
    (Throw (SystemError "EISDIR"), mkFS (files fs) (folders fs) (p :: writes fs))
  else if bool_decide (parentOf p ∈ folders fs) then
    (Ok tt, mkFS (<[p := c]> (files fs)) (folders fs) (p :: writes fs))
  else (Throw (SystemError "ENOENT"), mkFS (files fs) (folders fs) (p :: writes fs)).

(** The disk after a write that took place. *)
Definition written (p : string) (c : Content) (fs : FS) : FS :=
  mkFS (<[p := c]> (files fs)) (folders fs) (p :: writes fs).

(** The disk after a write that was refused: only the call is on record. *)
Definition refused (p : string) (fs : FS) : FS :=
  mkFS (files fs) (folders fs) (p :: writes fs).

Definition readFileSync (p : string) (fs : FS) : Res Content :=
  match files fs !! p with
  | Some c => Ok c
  | None =>
      if bool_decide (p ∈ folders fs) then Throw (SystemError "EISDIR")
      else Throw (SystemError "ENOENT")
  end.

(** [rmdirSync(dir, { recursive: true })] (Node 16 and later): the folder
    goes with everything below it; a path that is no folder is an error. *)
Definition rmdirSync (dir : string) (fs : FS) : Res unit * FS :=
  if bool_decide (dir ∈ folders fs) then
    (Ok tt,
     mkFS (filter (fun kv => under dir kv.1 = false) (files fs))
          (filter (fun p => under dir p = false) (folders fs))
          (writes fs))
  else if bool_decide (is_Some (files fs !! dir)) then
    (Throw (SystemError "ENOTDIR"), fs)
  else (Throw (SystemError "ENOENT"), fs).

(** ** Program state *)

(** What a confirmer hands back: an [Error] object or a plain value. *)
Inductive Answer : Type :=
  | AError (msg : string)
  | AValue (j : Json).

(** The module-level variables of [store.ts] ([plugins], [confirmInstall])
    and of [globals] ([pluginsPath]), the process ([cwd]), the disk, and the
    package-fetch collaborator, which maps a specifier and the fetch options
    to the name of the package it resolves to. *)
Record State : Type := mkState {
  plugins : gmap string Obj;
  confirmInstall : string -> Answer;
  pluginsPath : option string;
  cwd : string;
  disk : FS;
  fetchPackage : string -> Json -> option string
}.

Definition withPlugins (f : gmap string Obj -> gmap string Obj) (σ : State) : State :=
  mkState (f (plugins σ)) (confirmInstall σ) (pluginsPath σ) (cwd σ) (disk σ)
          (fetchPackage σ).

Definition withDisk (fs : FS) (σ : State) : State :=
  mkState (plugins σ) (confirmInstall σ) (pluginsPath σ) (cwd σ) fs
          (fetchPackage σ).

(** Computations that read and write the state and may throw. *)
Definition M (A : Type) : Type := State -> Res A * State.

Definition ret {A} (a : A) : M A := fun σ => (Ok a, σ).

Definition throw {A} (e : Exn) : M A := fun σ => (Throw e, σ).

Definition bind {A B} (m : M A) (k : A -> M B) : M B :=
  fun σ =>
    match m σ with
    | (Ok a, σ') => k a σ'
    | (Throw e, σ') => (Throw e, σ')
    end.

Notation "x <- m ;; k" := (bind m (fun x => k))
  (at level 100, m at next level, right associativity).
Notation "m ;;; k" := (bind m (fun _ => k))
  (at level 100, right associativity).

(** [try { body } catch (error) { handler }]. *)
Definition tryCatch {A} (body : M A) (handler : Exn -> M A) : M A :=
  fun σ =>
    match body σ with
    | (Ok a, σ') => (Ok a, σ')
    | (Throw e, σ') => handler e σ'
    end.

Definition liftRes {A} (r : Res A) : M A := fun σ => (r, σ).

(** [for (const x of l) body(x)]. *)
Fixpoint forEach {A} (body : A -> M unit) (l : list A) : M unit :=
  match l with
  | [] => ret tt
  | x :: rest => body x ;;; forEach body rest
  end.

(** ** globals *)

(** Modelled from the spec: the [globals] module ([pluginsPath],
    [setPluginsPath], [getPluginsFile]) is not among the sources.  "Sets the
    active plugins root"; the persisted registry is "a single file at a
    configured path under the plugins root", here [plugins.json], the name
    the error message of [usePlugins] gives it, joined to the root as
    [path.join] does.  Without a root there is no path to join. *)
Definition setPluginsPath (plgPath : string) : M unit :=
  fun σ => (Ok tt,
            mkState (plugins σ) (confirmInstall σ) (Some plgPath) (cwd σ) (disk σ)
                    (fetchPackage σ)).

Definition pluginsFileOf (root : string) : string :=
  normalize (if String.eqb root "" then "plugins.json" else root +:+ "/" +:+ "plugins.json").

Definition getPluginsFile : M string :=
  fun σ =>
    match pluginsPath σ with
    | Some root => (Ok (pluginsFileOf root), σ)
    | None => (Throw (TypeError "The path argument must be of type string"), σ)
    end.

(** ** Plugin *)

(** Modelled from the spec: the [Plugin] class is not among the sources.  A
    new record has [active = false], is not pending removal and has no
    listeners; built from a specifier and fetch options, it keeps the
    specifier as its [source]. *)
Definition newPlugin (origin : option (string * Json)) : Obj :=
  let blank : Obj :=
    {[ "_active" := VJson (JBool false);
       "_toUninstall" := VJson (JBool false);
       "_listeners" := VCallbacks [] ]} in
  match origin with
  | Some (spec, options) =>
      <["source" := VJson (JStr spec)]> (<["installOptions" := VJson options]> blank)
  | None => blank
  end.

(** Modelled from the spec: [Plugin.subscribe], "registers the store's
    persistence callback on the record"; listeners form a set. *)
Definition subscribe (cb : Callback) (this : Obj) : Obj :=
  let current :=
    match this !! "_listeners" with
    | Some (VCallbacks cbs) => cbs
    | _ => []
    end in
  <["_listeners" := VCallbacks (if bool_decide (cb ∈ current) then current
                                else cb :: current)]> this.

(** ** store.ts *)

(** [Object.values(o)], in the order the map lists its entries. *)
Definition objectValues {A} (o : gmap string A) : list A := (map_to_list o).*2.

(** [getPlugin(name)]. *)
Definition getPlugin (name : string) : M Obj :=
  fun σ =>
    match plugins σ !! name with
    | None => (Throw (Error ("Plugin " +:+ name +:+ " does not exist")), σ)
    | Some plugin => (Ok plugin, σ)
    end.

(** [getAllPlugins()]. *)
Definition getAllPlugins : M (list Obj) :=
  fun σ => (Ok (objectValues (plugins σ)), σ).

(** [getActivePlugins()]: [Object.values(plugins).filter(plugin => plugin._active)]. *)
Definition getActivePlugins : M (list Obj) :=
  fun σ =>
    (Ok (List.filter (fun plugin : Obj => truthy (plugin !! "_active"))
                     (objectValues (plugins σ))), σ).

(** The object written for one plugin:
    [const { _listeners, dependencies, ...plugin } = plugins[name]]. *)
Definition persistEntry (o : Obj) : Json :=
  JObj (map_to_list (toJson <$> delete "dependencies" (delete "_listeners" o))).

(** [persistPlugins()]. *)
Definition persistPlugins : M unit :=
  fun σ =>
    let persistData := JObj (map_to_list (persistEntry <$> plugins σ)) in
    (file <- getPluginsFile ;;
     fun σ' =>
       let (r, fs) := writeFileSync file (Doc persistData) (disk σ') in
       (r, withDisk fs σ')) σ.

(** [delete o[k]] on a plain object: the property goes, and the operator
    answers [true] whether or not the property was there. *)
Definition jsDelete {A} (k : string) (o : gmap string A) : gmap string A * bool :=
  (delete k o, true).

(** [removePlugin(name, persist = true)]. *)
Definition removePlugin (name : string) (persist : bool) : M bool :=
  fun σ =>
    let (plugins', del) := jsDelete name (plugins σ) in
    ((if persist then persistPlugins else ret tt) ;;; ret del)
      (withPlugins (fun _ => plugins') σ).

(** [addPlugin(plugin, persist = true)].  The register holds the very object
    it is given, so the listener that [subscribe] adds last shows in the
    register; the object as it is at the end is returned.  [plugin.subscribe]
    is a property read: an own property of that name, which holds data,
    hides the method of the class and cannot be called. *)
Definition addPlugin (plugin : Obj) (persist : bool) : M Obj :=
  let key := toKey (plugin !! "name") in
  (fun σ => (Ok tt, withPlugins (insert key plugin) σ)) ;;;
  (if persist then persistPlugins else ret tt) ;;;
  match plugin !! "subscribe" with
  | Some _ => throw (TypeError "plugin.subscribe is not a function")
  | None =>
      let plugin' := subscribe CbPersistPlugins plugin in
      fun σ => (Ok plugin', withPlugins (insert key plugin') σ)
  end.

(** The initial value of [confirmInstall]: it hands back an [Error]. *)
Definition defaultConfirmInstall : string -> Answer :=
  fun _ => AError "The facade.confirmInstall callback needs to be set in when initializing Pluggable Electron in the main process.".

(** [setConfirmInstall(cb)]. *)
Definition setConfirmInstall (cb : string -> Answer) : M unit :=
  fun σ => (Ok tt,
            mkState (plugins σ) cb (pluginsPath σ) (cwd σ) (disk σ) (fetchPackage σ)).

(** Modelled from the spec: [Plugin._install] is not among the sources.
    Install is "fetch, validate, register": it "resolves the specifier to a
    local package (external collaborator), invokes the configured install
    confirmer; if it returns false or errors, the install aborts and no
    record is created".  A specifier that the package-fetch collaborator
    cannot resolve is an install failure ([FetchFailed]); the [Error] that
    the initial [confirmInstall] hands back is the missing configuration
    ([NotConfigured]); a falsy answer is a refusal ([InstallRejected]); on
    success the record takes the name of the package, with
    [active = false]. *)
Definition _install (this : Obj) : M Obj :=
  fun σ =>
    let spec := toKey (this !! "source") in
    let options :=
      match this !! "installOptions" with
      | Some v => toJson v
      | None => JObj []
      end in
    match fetchPackage σ spec options with
    | None => (Throw FetchFailed, σ)
    | Some name =>
        match confirmInstall σ spec with
        | AError _ => (Throw NotConfigured, σ)
        | AValue v =>
            if truthyJ (Some v) then
              (Ok (<["name" := VJson (JStr name)]>
                     (<["_active" := VJson (JBool false)]> this)), σ)
            else (Throw InstallRejected, σ)
        end
    end.

(** [installPlugin(spec, options, store = true)], for a given behaviour of
    the method [plugin._install()]: the body of the function is in the
    sources, the method is not. *)
Definition installPluginWith (install : Obj -> M Obj)
    (spec : string) (options : Json) (store : bool) : M Obj :=
  let plugin := newPlugin (Some (spec, options)) in
  plugin' <- install plugin ;;
  if store then addPlugin plugin' true else ret plugin'.

Definition installPlugin : string -> Json -> bool -> M Obj :=
  installPluginWith _install.

(** ** index.ts *)

(** [s.substr(n)]. *)
Fixpoint substr (n : nat) (s : string) : string :=
  match n, s with
  | O, _ => s
  | S n', String _ rest => substr n' rest
  | S _, EmptyString => EmptyString
  end.

(** What the handler passes to [callback]. *)
Record Response : Type := mkResponse { path : string }.

(** The request handler that [registerPluginProtocol] registers for the
    [plugin] scheme.  An unset root is [null] and concatenates as such. *)
Definition registerPluginProtocol (requestUrl : string) : M Response :=
  fun σ =>
    let entry := substr 8 requestUrl in
    let root := match pluginsPath σ with Some r => r | None => "null" end in
    let url := normalize (root +:+ entry) in
    (Ok (mkResponse url), σ).

Definition asString (v : option Json) : option string :=
  match v with
  | Some (JStr s) => Some s
  | _ => None
  end.

(** The record that [loadPlugin] builds for an entry:
    [const plugin = new Plugin(); for (const key in plg) plugin[key] = plg[key]]. *)
Definition reconstruct (plg : Json) : Obj :=
  foldl (fun (o : Obj) kv => <[kv.1 := VJson kv.2]> o) (newPlugin None) (forIn plg).

(** [loadPlugin(plg)]. *)
Definition loadPlugin (plg : Json) : M unit :=
  toUninstall <- liftRes (getProp plg "_toUninstall") ;;
  if truthyJ toUninstall then
    name <- liftRes (getProp plg "name") ;;
    fun σ =>
      (plgPath <- liftRes (resolve (cwd σ) [pluginsPath σ; asString name]) ;;
       fun σ' =>
         let (r, fs) := rmdirSync plgPath (disk σ') in (r, withDisk fs σ')) σ
  else
    addPlugin (reconstruct plg) false ;;; ret tt.

(** [JSON.parse(readFileSync(file))]. *)
Definition readJson (file : string) : M Json :=
  fun σ =>
    match readFileSync file (disk σ) with
    | Throw e => (Throw e, σ)
    | Ok Garbage => (Throw SyntaxError, σ)
    | Ok (Doc j) => (Ok j, σ)
    end.

Definition rebuildError : Exn :=
  Error "Could not successfully rebuild list of installed plugins. Please check the plugins.json file in the plugins folder".

(** The loop of [usePlugins] that empties the register:
    [for (const plugin of _getAllPlugins()) removePlugin(plugin.name, false)]. *)
Definition clearPlugins : M unit :=
  registered <- getAllPlugins ;;
  forEach (fun plugin : Obj => removePlugin (toKey (plugin !! "name")) false ;;; ret tt)
          registered.

(** The loop of [usePlugins] over the parsed file:
    [for (const p in plugins) loadPlugin(plugins[p])]. *)
Definition loadEntries (stored : Json) : M unit :=
  forEach (fun entry : string * Json => loadPlugin entry.2) (forIn stored).

(** [usePlugins(pluginsPath)]; the empty string is the falsy argument.  The
    object of lifecycle functions it returns carries no data. *)
Definition usePlugins (plgPath : string) : M unit :=
  fun σ =>
    if String.eqb plgPath "" && negb (truthyJ (JStr <$> pluginsPath σ)) then
      (Throw (Error "A path to the plugins folder is required to use Pluggable Electron"), σ)
    else if negb (String.eqb plgPath "") then
      (setPluginsPath plgPath ;;;
       clearPlugins ;;;
       file <- getPluginsFile ;;
       fun σ' =>
         if existsSync file (disk σ') then
           (stored <- readJson file ;;
            tryCatch
              (loadEntries stored ;;; persistPlugins)
              (fun _ => throw rebuildError)) σ'
         else (Ok tt, σ')) σ
    else (Ok tt, σ).

(** The configuration object handed to [init]: its [confirmInstall], and
    its own property [use] when it has one. *)
Record Facade : Type := mkFacade {
  facadeConfirmInstall : string -> Answer;
  facadeUse : option Json
}.

(** [init(facade, pluginsPath)].  [router] is not among the sources and is
    taken as a parameter.  Registering the handler of the [plugin] scheme
    changes none of the variables of the state.  A path that is not given is
    [None]; the objects returned carry no data. *)
Definition init (router : M unit) (facade : Facade) (plgPath : option string) : M unit :=
  (if match facadeUse facade with
      | None => true
      | Some use => truthyJ (Some use)
      end
   then setConfirmInstall (facadeConfirmInstall facade) ;;; router
   else ret tt) ;;;
  match plgPath with
  | Some p => if negb (String.eqb p "") then usePlugins p else ret tt
  | None => ret tt
  end.

(** ** Notions used in the statements *)

Definition emptyDisk : FS := mkFS ∅ ∅ [].

(** A process that has its plugins root set and nothing else. *)
Definition freshState : State :=
  mkState ∅ defaultConfirmInstall (Some "/app/plugins") "/home" emptyDisk
          (fun _ _ => None).

(** An active record that is also marked for removal. *)
Definition doomed : Obj :=
  {[ "name" := VJson (JStr "a");
     "_active" := VJson (JBool true);
     "_toUninstall" := VJson (JBool true) ]}.

(** The document that [persistPlugins] writes for a register. *)
Definition persistedDoc (reg : gmap string Obj) : Json :=
  JObj (map_to_list (persistEntry <$> reg)).



(** The registry file can be written: the plugins root is set, its folder is
    on disk and no folder is in the place of the file. *)
Definition writable (σ : State) : Prop :=
  exists root, pluginsPath σ = Some root /\
               canWrite (pluginsFileOf root) (disk σ) = true.

(** Every record is stored under the key its [name] converts to: what a
    register built by [addPlugin] looks like. *)
Definition keyedByName (reg : gmap string Obj) : Prop :=
  forall k plugin, reg !! k = Some plugin -> toKey (plugin !! "name") = k.

(** A register that already holds a record named "a", and a new record of
    that name. *)
Definition newer : Obj :=
  {[ "name" := VJson (JStr "a"); "_active" := VJson (JBool false) ]}.

Fixpoint hasSlash (s : string) : bool :=
  match s with
  | EmptyString => false
  | String a rest => Ascii.eqb a slash || hasSlash rest
  end.

(** A segment that names a file or folder: no separator in it, and none of
    the empty, ".", ".." segments. *)
Definition properSegment (s : string) : Prop :=
  hasSlash s = false /\ s <> "" /\ s <> "." /\ s <> "..".

(** The register once the clearing loop of [usePlugins] has run: every
    listed record has had the key of its name deleted. *)
Definition cleared (reg : gmap string Obj) : gmap string Obj :=
  foldl (fun (m : gmap string Obj) (plugin : Obj) => delete (toKey (plugin !! "name")) m)
        reg (objectValues reg).

(** The state in which [usePlugins] reads the registry file: root set,
    register cleared. *)
Definition resetState (plgPath : string) (σ : State) : State :=
  mkState (cleared (plugins σ)) (confirmInstall σ) (Some plgPath) (cwd σ) (disk σ)
          (fetchPackage σ).

(** A registry file whose second entry is [null]. *)
Definition entryA : string * Json := ("a", JObj [("name", JStr "a")]).

Definition corruptDoc : Json := JObj [entryA; ("b", JNull)].

Definition corruptState : State :=
  withDisk (mkFS {[ "/app/plugins/plugins.json" := Doc corruptDoc ]}
                 {[ "/app/plugins" ]} [])
           freshState.

(** A disk with the folder of plugin "a", and two entries: one marked for
    removal, one not. *)
Definition installedState : State :=
  withDisk (mkFS {[ "/app/plugins/a/index.js" := Garbage ]}
                 {[ "/app/plugins"; "/app/plugins/a" ]} [])
           freshState.

Definition markedEntry : list (string * Json) :=
  [("name", JStr "a"); ("_toUninstall", JBool true)].

Definition keptEntry : list (string * Json) :=
  [("name", JStr "b"); ("_active", JBool true)].

(** The fields written for a plugin. *)
Definition persistedFields (o : Obj) : gmap string Json :=
  toJson <$> delete "dependencies" (delete "_listeners" o).

(** The record that loading rebuilds from what was written for [o]. *)
Definition rebuilt (o : Obj) : Obj :=
  subscribe CbPersistPlugins (reconstruct (persistEntry o)).

(** A register with one active record that has a listener and dependency
    data in memory. *)
Definition working : Obj :=
  {[ "name" := VJson (JStr "b");
     "source" := VJson (JStr "./plugins/b");
     "_active" := VJson (JBool true);
     "_toUninstall" := VJson (JBool false);
     "_listeners" := VCallbacks [CbOther "ui"];
     "dependencies" := VJson (JArr [JStr "left-pad"]) ]}.

Definition workingState : State := withPlugins (insert "b" working) installedState.

(** A computation keeps a relation between the state it starts in and the
    state it ends in, whether it returns or throws. *)
Definition keeps {A} (Q : State -> State -> Prop) (m : M A) : Prop :=
  forall σ r σ', m σ = (r, σ') -> Q σ σ'.

(** Everything but the register and the disk is the same. *)
Definition sameSettings (σ σ' : State) : Prop :=
  confirmInstall σ' = confirmInstall σ /\
  pluginsPath σ' = pluginsPath σ /\
  cwd σ' = cwd σ /\
  fetchPackage σ' = fetchPackage σ.

(** The confirmer is the same. *)
Definition sameConfirmer (σ σ' : State) : Prop :=
  confirmInstall σ' = confirmInstall σ.

(** Nothing was handed to [writeFileSync]. *)
Definition noWrite (σ σ' : State) : Prop :=
  writes (disk σ') = writes (disk σ).

(** A register keyed by name stays keyed by name. *)
Definition staysKeyed (σ σ' : State) : Prop :=
  keyedByName (plugins σ) -> keyedByName (plugins σ').

(** A plugins folder whose registry file lists a plugin to keep and a
    plugin marked for removal, whose folder is there. *)
Definition storedDoc : Json := JObj [("b", JObj keptEntry); ("a", JObj markedEntry)].

Definition storedState : State :=
  withDisk (mkFS {[ "/app/plugins/plugins.json" := Doc storedDoc;
                    "/app/plugins/a/index.js" := Garbage ]}
                 {[ "/app/plugins"; "/app/plugins/a" ]} [])
           freshState.

(** A facade that switches the renderer side off, and one that does not say. *)
Definition silentFacade : Facade :=
  mkFacade (fun _ => AValue (JBool true)) (Some (JBool false)).

Definition plainFacade : Facade :=
  mkFacade (fun _ => AValue (JBool true)) None.

(** A state whose confirmer accepts everything and whose fetch resolves a
    specifier to a package of that name; the plugins folder is there. *)
Definition acceptingState : State :=
  mkState ∅ (fun _ => AValue (JBool true)) (Some "/app/plugins") "/home"
          (mkFS ∅ {[ "/app/plugins" ]} [])
          (fun spec _ => Some spec).

(** The plugin of specifier "foo" once installed. *)
Definition fooInstalled : Obj :=
  <["name" := VJson (JStr "foo")]>
    (<["_active" := VJson (JBool false)]> (newPlugin (Some ("foo", JObj [])))).

(** The state after [persistPlugins] and a load from the same root, for a
    register none of whose records is marked: the file has been written
    twice, the second time from the rebuilt register. *)
Definition reloaded (root : string) (σ : State) : State :=
  let file := pluginsFileOf root in
  let disk1 := written file (Doc (persistedDoc (plugins σ))) (disk σ) in
  mkState (rebuilt <$> plugins σ) (confirmInstall σ) (Some root) (cwd σ)
          (written file (Doc (persistedDoc (rebuilt <$> plugins σ))) disk1)
          (fetchPackage σ).

(** Whether [loadPlugin] takes an entry as marked for removal. *)
Definition entryMarked (e : Json) : bool :=
  match getProp e "_toUninstall" with
  | Ok t => truthyJ t
  | Throw _ => false
  end.

(** Whether path [p] is at or below the folder, under [root], of an entry of
    [l] that is marked for removal. *)
Definition removedBy (root : string) (l : list (string * Json)) (p : string) : bool :=
  existsb (fun ke : string * Json => entryMarked ke.2 && under (root +:+ "/" +:+ ke.1) p) l.

(** A registry with a plugin to keep and an active plugin marked for
    removal, on a disk that has the folder of the latter. *)
Definition doomedNamed : Obj :=
  {[ "name" := VJson (JStr "a");
     "_active" := VJson (JBool true);
     "_toUninstall" := VJson (JBool true) ]}.

Definition mixedState : State :=
  withPlugins (insert "a" doomedNamed) workingState.

(** A disk where, next to the plugins folder, another folder holds a
    file; and a stored entry marked for removal that is named by that
    folder's absolute path. *)
Definition sharedDiskState : State :=
  withDisk (mkFS {[ "/srv/data/keep.txt" := Garbage ]}
                 {[ "/app/plugins"; "/srv/data" ]} [])
           freshState.

Definition outsideEntry : list (string * Json) :=
  [("name", JStr "/srv/data"); ("_toUninstall", JBool true)].

(** * Properties *)

(** ** Paths, on examples *)

Example normalize_ex1 : normalize "/app/plugins/foo/../bar//x/./y/" = "/app/plugins/bar/x/y/".
Proof. reflexivity. Qed.

Example normalize_ex2 : normalize "a/../../b" = "../b".
Proof. reflexivity. Qed.

Example resolve_ex1 : resolve "/home" [Some "/app/plugins"; Some "foo"] = Ok "/app/plugins/foo".
Proof. reflexivity. Qed.

Example resolve_ex2 : resolve "/home" [Some "plugins"; Some "../x"] = Ok "/home/x".
Proof. reflexivity. Qed.

(** ** Generic facts about the monad *)

Lemma bind_ok {A B} (m : M A) (k : A -> M B) σ a σ' :
  m σ = (Ok a, σ') -> bind m k σ = k a σ'.
Proof. intros H. unfold bind. by rewrite H. Qed.

Lemma bind_throw {A B} (m : M A) (k : A -> M B) σ e σ' :
  m σ = (Throw e, σ') -> bind m k σ = (Throw e, σ').
Proof. intros H. unfold bind. by rewrite H. Qed.

Lemma forEach_app {A} (body : A -> M unit) l1 l2 σ σ' :
  forEach body l1 σ = (Ok tt, σ') ->
  forEach body (l1 ++ l2) σ = forEach body l2 σ'.
Proof.
  revert σ. induction l1 as [|x l1 IH]; intros σ H; simpl in *.
  - unfold ret in H. by inversion H.
  - unfold bind in *. destruct (body x σ) as [[[]|e] σ1]; [|done].
    by apply IH.
Qed.

(** ** Reading the register *)

(** C9.  [getPlugin] on a name that is not registered throws the error
    "Plugin <name> does not exist" and leaves the state as it was; on a
    registered name it returns the record stored under it (and leaves the
    state as it was). *)
Theorem getPlugin_spec (name : string) (σ : State) :
  (plugins σ !! name = None ->
   getPlugin name σ = (Throw (Error ("Plugin " +:+ name +:+ " does not exist")), σ)) /\
  (forall plugin, plugins σ !! name = Some plugin ->
   getPlugin name σ = (Ok plugin, σ)).
Proof.
  unfold getPlugin. split.
  - intros ->. reflexivity.
  - intros plugin ->. reflexivity.
Qed.

Lemma getPlugin_spec_witness :
  getPlugin "ghost" freshState
    = (Throw (Error "Plugin ghost does not exist"), freshState) /\
  getPlugin "a" (withPlugins (insert "a" doomed) freshState)
    = (Ok doomed, withPlugins (insert "a" doomed) freshState).
Proof.
  split.
  - apply (proj1 (getPlugin_spec "ghost" freshState)). reflexivity.
  - apply (proj2 (getPlugin_spec "a" (withPlugins (insert "a" doomed) freshState))).
    reflexivity.
Defined.

Lemma elem_of_objectValues {A} (m : gmap string A) (x : A) :
  x ∈ objectValues m <-> exists k, m !! k = Some x.
Proof.
  unfold objectValues. rewrite list_elem_of_fmap. split.
  - intros [[k y] [-> Hin]]. exists k. by apply elem_of_map_to_list in Hin.
  - intros [k Hk]. exists (k, x). split; [done|]. by apply elem_of_map_to_list.
Qed.

(** C1 (as the code has it).  [getActivePlugins] returns exactly the
    registered records whose [_active] property is truthy, so no record whose
    active flag is [false]; the [_toUninstall] mark is not looked at. *)
Theorem getActivePlugins_spec (σ : State) :
  exists l, getActivePlugins σ = (Ok l, σ) /\
    (forall plugin : Obj,
        plugin ∈ l <->
        (exists name, plugins σ !! name = Some plugin) /\
        truthy (plugin !! "_active") = true) /\
    (forall plugin : Obj, plugin ∈ l -> plugin !! "_active" <> Some (VJson (JBool false))).
Proof.
  eexists. split; [reflexivity|].
  assert (Hiff : forall plugin : Obj,
             plugin ∈ List.filter (fun plugin : Obj => truthy (plugin !! "_active"))
                                  (objectValues (plugins σ)) <->
             (exists name, plugins σ !! name = Some plugin) /\
             truthy (plugin !! "_active") = true).
  { intros plugin. rewrite list_elem_of_In, filter_In, <- list_elem_of_In.
    by rewrite elem_of_objectValues. }
  split; [exact Hiff|].
  intros plugin Hin Hfalse. apply Hiff in Hin as [_ Ht].
  rewrite Hfalse in Ht. discriminate.
Qed.

(** C1, counterexample: a record that is active and marked for removal is
    listed as active. *)
Lemma getActivePlugins_lists_marked :
  getActivePlugins (withPlugins (insert "a" doomed) freshState)
    = (Ok [doomed], withPlugins (insert "a" doomed) freshState) /\
  truthy (doomed !! "_toUninstall") = true.
Proof. split; reflexivity. Qed.

(** ** Writing the register to disk *)

Lemma writeFileSync_ok (p : string) (c : Content) (fs : FS) :
  canWrite p fs = true -> writeFileSync p c fs = (Ok tt, written p c fs).
Proof.
  unfold canWrite, writeFileSync. intros [H1 H2]%andb_true_iff.
  apply negb_true_iff in H1. by rewrite H1, H2.
Qed.

Lemma writeFileSync_refused (p : string) (c : Content) (fs : FS) :
  canWrite p fs = false ->
  exists code, writeFileSync p c fs = (Throw (SystemError code), refused p fs).
Proof.
  unfold canWrite, writeFileSync. intros H.
  destruct (bool_decide (p ∈ folders fs)); [by eexists|].
  destruct (bool_decide (parentOf p ∈ folders fs)); [done|by eexists].
Qed.

Lemma canWrite_written (p q : string) (c : Content) (fs : FS) :
  canWrite p (written q c fs) = canWrite p fs.
Proof. reflexivity. Qed.

Lemma persistPlugins_ok (σ : State) (root : string) :
  pluginsPath σ = Some root ->
  canWrite (pluginsFileOf root) (disk σ) = true ->
  persistPlugins σ =
    (Ok tt,
     withDisk (written (pluginsFileOf root) (Doc (persistedDoc (plugins σ)))
                             (disk σ)) σ).
Proof.
  intros Hroot Hw. unfold persistPlugins, bind, getPluginsFile. rewrite Hroot.
  by rewrite (writeFileSync_ok _ _ _ Hw).
Qed.

Lemma persistPlugins_refused (σ : State) (root : string) :
  pluginsPath σ = Some root ->
  canWrite (pluginsFileOf root) (disk σ) = false ->
  exists code,
    persistPlugins σ
    = (Throw (SystemError code), withDisk (refused (pluginsFileOf root) (disk σ)) σ).
Proof.
  intros Hroot Hw. unfold persistPlugins, bind, getPluginsFile. rewrite Hroot.
  destruct (writeFileSync_refused (pluginsFileOf root)
              (Doc (JObj (map_to_list (persistEntry <$> plugins σ)))) (disk σ) Hw)
    as [code ->].
  by exists code.
Qed.

Lemma persistPlugins_unset (σ : State) :
  pluginsPath σ = None ->
  persistPlugins σ =
    (Throw (TypeError "The path argument must be of type string"), σ).
Proof.
  intros Hroot. unfold persistPlugins, bind, getPluginsFile. by rewrite Hroot.
Qed.

(** ** Removing *)

(** C6 (as the code has it).  [removePlugin] deletes the record stored under
    the name and leaves the other records alone, in every case.  It never
    returns [false]: it returns [true], also when no record was stored under
    the name, whenever [persist] is off or the registry file can be written;
    with [persist] on and a registry file that cannot be written (no plugins
    root, its folder missing, a folder in its place) it throws the error of
    the write, after the deletion. *)
Theorem removePlugin_spec (name : string) (persist : bool) (σ : State) :
  exists r σ', removePlugin name persist σ = (r, σ') /\
    plugins σ' !! name = None /\
    (forall other, other <> name -> plugins σ' !! other = plugins σ !! other) /\
    r <> Ok false /\
    (persist = false \/
     (exists root, pluginsPath σ = Some root /\
                   canWrite (pluginsFileOf root) (disk σ) = true) ->
     r = Ok true) /\
    (persist = true ->
     pluginsPath σ = None \/
     (exists root, pluginsPath σ = Some root /\
                   canWrite (pluginsFileOf root) (disk σ) = false) ->
     exists e, r = Throw e).
Proof.
  assert (Hdel : forall σ1, plugins σ1 = delete name (plugins σ) ->
             plugins σ1 !! name = None /\
             (forall other, other <> name -> plugins σ1 !! other = plugins σ !! other)).
  { intros σ1 ->. split; [apply lookup_delete_eq|].
    intros other Hne. by apply lookup_delete_ne. }
  unfold removePlugin, jsDelete. destruct persist.
  - destruct (pluginsPath σ) as [root|] eqn:Hroot.
    + destruct (canWrite (pluginsFileOf root) (disk σ)) eqn:Hw.
      * eexists _, _. split.
        { erewrite bind_ok; [reflexivity|]. by apply (persistPlugins_ok _ root). }
        destruct (Hdel (withPlugins (fun _ => delete name (plugins σ)) σ) eq_refl).
        repeat split; try done.
        intros _ [?|(root' & [= <-] & ?)]; congruence.
      * destruct (persistPlugins_refused
                    (withPlugins (fun _ => delete name (plugins σ)) σ) root Hroot Hw)
          as [code Hrun].
        eexists _, _. split.
        { erewrite bind_throw; [reflexivity|exact Hrun]. }
        destruct (Hdel (withPlugins (fun _ => delete name (plugins σ)) σ) eq_refl).
        repeat split; try done.
        -- intros [?|(root' & [= <-] & ?)]; congruence.
        -- intros _ _. by eexists.
    + eexists _, _. split.
      { erewrite bind_throw; [reflexivity|]. by apply persistPlugins_unset. }
      destruct (Hdel (withPlugins (fun _ => delete name (plugins σ)) σ) eq_refl).
      repeat split; try done.
      * intros [?|(root' & ? & ?)]; congruence.
      * intros _ _. by eexists.
  - eexists _, _. split; [reflexivity|].
    destruct (Hdel (withPlugins (fun _ => delete name (plugins σ)) σ) eq_refl).
    repeat split; try done.
Qed.

Lemma removePlugin_spec_witness :
  exists σ', removePlugin "a" true (withPlugins (insert "a" doomed) installedState)
               = (Ok true, σ') /\
    plugins σ' !! "a" = None.
Proof.
  destruct (removePlugin_spec "a" true (withPlugins (insert "a" doomed) installedState))
    as (r & σ' & Hrun & Hgone & _ & _ & Hok & _).
  exists σ'. split; [|exact Hgone].
  rewrite Hrun, Hok; [reflexivity|].
  right. exists "/app/plugins". split; reflexivity.
Defined.

(** C6, counterexample: nothing is registered under "ghost", and
    [removePlugin] still returns [true]. *)
Lemma removePlugin_absent_true :
  plugins freshState !! "ghost" = None /\
  (removePlugin "ghost" false freshState).1 = Ok true.
Proof. split; reflexivity. Qed.

(** C10.  With the plugins root set, [removePlugin(name, true)] hands the
    registry file to [writeFileSync] once, whether or not a record was
    stored under the name: the write is not skipped when the delete removes
    nothing.  Where the file can be written, the call returns [true] and the
    file holds the register as it is after the deletion; where it cannot,
    the error of the write is thrown and the files are as they were. *)
Theorem removePlugin_persists (name : string) (σ : State) (root : string) :
  pluginsPath σ = Some root ->
  exists r σ', removePlugin name true σ = (r, σ') /\
    writes (disk σ') = pluginsFileOf root :: writes (disk σ) /\
    (canWrite (pluginsFileOf root) (disk σ) = true ->
     r = Ok true /\
     files (disk σ') !! pluginsFileOf root
       = Some (Doc (persistedDoc (delete name (plugins σ))))) /\
    (canWrite (pluginsFileOf root) (disk σ) = false ->
     (exists code, r = Throw (SystemError code)) /\
     files (disk σ') = files (disk σ)).
Proof.
  intros Hroot. unfold removePlugin, jsDelete.
  destruct (canWrite (pluginsFileOf root) (disk σ)) eqn:Hw.
  - eexists _, _. split.
    { erewrite bind_ok; [reflexivity|]. by apply (persistPlugins_ok _ root). }
    simpl. split; [reflexivity|]. split; [|done].
    intros _. split; [reflexivity|]. apply lookup_insert_eq.
  - destruct (persistPlugins_refused
                (withPlugins (fun _ => delete name (plugins σ)) σ) root Hroot Hw)
      as [code Hrun].
    eexists _, _. split.
    { erewrite bind_throw; [reflexivity|exact Hrun]. }
    simpl. split; [reflexivity|]. split; [done|].
    intros _. split; [by eexists|reflexivity].
Qed.

(** The instance of C10 where no record is stored under the name. *)
Lemma removePlugin_persists_witness :
  plugins installedState !! "ghost" = None /\
  exists σ', removePlugin "ghost" true installedState = (Ok true, σ') /\
    writes (disk σ') = ["/app/plugins/plugins.json"] /\
    files (disk σ') !! "/app/plugins/plugins.json" = Some (Doc (JObj [])).
Proof.
  split; [reflexivity|].
  destruct (removePlugin_persists "ghost" installedState "/app/plugins" eq_refl)
    as (r & σ' & Hrun & Hw & Hok & _).
  destruct (Hok eq_refl) as [-> Hf].
  exists σ'. split; [exact Hrun|]. split; [exact Hw|exact Hf].
Defined.

(** ** Installing *)







(** ** Adding *)

Lemma subscribe_lookup_ne (cb : Callback) (o : Obj) (k : string) :
  k <> "_listeners" -> subscribe cb o !! k = o !! k.
Proof. intros Hne. unfold subscribe. by rewrite lookup_insert_ne. Qed.

Lemma subscribe_name (cb : Callback) (o : Obj) :
  toKey (subscribe cb o !! "name") = toKey (o !! "name").
Proof. by rewrite subscribe_lookup_ne. Qed.

(** What [addPlugin] leaves in the register and on disk, for a plugin that
    has no own [subscribe] property. *)
Lemma addPlugin_run (plugin : Obj) (persist : bool) (σ : State) :
  plugin !! "subscribe" = None ->
  (persist = true -> writable σ) ->
  let key := toKey (plugin !! "name") in
  let stored := subscribe CbPersistPlugins plugin in
  exists σ', addPlugin plugin persist σ = (Ok stored, σ') /\
    plugins σ' = <[key := stored]> (plugins σ) /\
    pluginsPath σ' = pluginsPath σ /\
    cwd σ' = cwd σ /\
    disk σ' =
      (if persist then
         match pluginsPath σ with
         | Some root =>
             written (pluginsFileOf root)
               (Doc (persistedDoc (<[key := plugin]> (plugins σ)))) (disk σ)
         | None => disk σ
         end
       else disk σ).
Proof.
  intros Hsub Hroot key stored. unfold addPlugin. fold key. rewrite Hsub. fold stored.
  destruct persist.
  - destruct Hroot as (root & Hroot & Hw); [done|].
    eexists. split.
    + erewrite bind_ok; [|reflexivity].
      erewrite bind_ok; [reflexivity|].
      by apply (persistPlugins_ok _ root).
    + simpl. rewrite Hroot. split; [apply insert_insert_eq|done].
  - eexists. split; [reflexivity|]. simpl.
    split; [apply insert_insert_eq|done].
Qed.

Lemma addPlugin_false (plugin : Obj) (σ : State) :
  plugin !! "subscribe" = None ->
  addPlugin plugin false σ
  = (Ok (subscribe CbPersistPlugins plugin),
     withPlugins (insert (toKey (plugin !! "name")) (subscribe CbPersistPlugins plugin)) σ).
Proof.
  intros Hsub. unfold addPlugin. rewrite Hsub.
  unfold bind, ret, withPlugins. simpl. by rewrite insert_insert_eq.
Qed.

(** An own [subscribe] property makes [addPlugin] throw after the plugin is
    in the register. *)
Lemma addPlugin_false_shadowed (plugin : Obj) (v : Value) (σ : State) :
  plugin !! "subscribe" = Some v ->
  addPlugin plugin false σ
  = (Throw (TypeError "plugin.subscribe is not a function"),
     withPlugins (insert (toKey (plugin !! "name")) plugin) σ).
Proof. intros Hsub. unfold addPlugin. rewrite Hsub. reflexivity. Qed.

Lemma filter_nil_Forall {A} (f : A -> bool) (l : list A) :
  Forall (fun x => f x = false) l -> List.filter f l = [].
Proof.
  induction 1 as [|x l Hx _ IH]; simpl; [done|]. by rewrite Hx.
Qed.

(** In a register keyed by name, one record carries a registered name. *)
Lemma objectValues_one_per_name (reg : gmap string Obj) (name : string) (plugin : Obj) :
  keyedByName reg ->
  reg !! name = Some plugin ->
  length (List.filter (fun p : Obj => String.eqb (toKey (p !! "name")) name)
                      (objectValues reg)) = 1%nat.
Proof.
  intros Hkeyed Hname.
  assert (Hperm : objectValues reg ≡ₚ plugin :: objectValues (delete name reg)).
  { unfold objectValues.
    rewrite <- (insert_delete_id reg name plugin Hname) at 1.
    rewrite map_to_list_insert by apply lookup_delete_eq. done. }
  assert (Hlen : forall l1 l2 : list Obj, l1 ≡ₚ l2 ->
             length (List.filter (fun p : Obj => String.eqb (toKey (p !! "name")) name) l1)
             = length (List.filter (fun p : Obj => String.eqb (toKey (p !! "name")) name) l2)).
  { induction 1; simpl; repeat case_match; simpl; congruence. }
  rewrite (Hlen _ _ Hperm). simpl.
  rewrite (Hkeyed _ _ Hname), String.eqb_refl. simpl.
  rewrite filter_nil_Forall; [done|].
  apply Forall_forall. intros p Hp.
  apply elem_of_objectValues in Hp as [k Hk].
  apply lookup_delete_Some in Hk as [Hne Hk].
  apply Hkeyed in Hk. rewrite Hk.
  apply String.eqb_neq. congruence.
Qed.

Lemma keyedByName_insert (reg : gmap string Obj) (plugin : Obj) :
  keyedByName reg ->
  keyedByName (<[toKey (plugin !! "name") := subscribe CbPersistPlugins plugin]> reg).
Proof.
  intros Hkeyed k p Hk.
  apply lookup_insert_Some in Hk as [[<- <-]|[Hne Hk]].
  - apply subscribe_name.
  - by apply Hkeyed.
Qed.

(** Keying by name holds of the empty register and is kept by [addPlugin]
    and [removePlugin]. *)
Lemma keyedByName_empty : keyedByName ∅.
Proof. intros k p Hk. by rewrite lookup_empty in Hk. Qed.

Lemma keyedByName_delete (reg : gmap string Obj) (name : string) :
  keyedByName reg -> keyedByName (delete name reg).
Proof.
  intros Hkeyed k p Hk. apply lookup_delete_Some in Hk as [_ Hk]. by apply Hkeyed.
Qed.

Lemma keyedByName_insert_plain (reg : gmap string Obj) (plugin : Obj) :
  keyedByName reg -> keyedByName (<[toKey (plugin !! "name") := plugin]> reg).
Proof.
  intros Hkeyed k p Hk.
  apply lookup_insert_Some in Hk as [[<- <-]|[Hne Hk]]; [done|by apply Hkeyed].
Qed.

Lemma writeFileSync_frame (p : string) (c : Content) (fs fs' : FS) (r : Res unit) :
  writeFileSync p c fs = (r, fs') ->
  folders fs' = folders fs /\ ((exists e, r = Throw e) -> files fs' = files fs).
Proof.
  unfold writeFileSync.
  destruct (bool_decide (p ∈ folders fs)); [by intros [= <- <-]|].
  destruct (bool_decide (parentOf p ∈ folders fs)); intros [= <- <-]; [|done].
  split; [done|]. by intros [? [= ]].
Qed.

(** [persistPlugins] changes the disk only, and of the disk neither the
    folders nor, when it throws, the files. *)
Lemma persistPlugins_frame (σ σ' : State) (r : Res unit) :
  persistPlugins σ = (r, σ') ->
  exists fs, σ' = withDisk fs σ /\ folders fs = folders (disk σ) /\
    ((exists e, r = Throw e) -> files fs = files (disk σ)).
Proof.
  unfold persistPlugins, bind, getPluginsFile.
  destruct (pluginsPath σ) as [root|].
  - destruct (writeFileSync _ _ _) as [r0 fs'] eqn:Hw. intros [= <- <-].
    exists fs'. split; [reflexivity|]. by eapply writeFileSync_frame.
  - intros [= <- <-]. exists (disk σ). by destruct σ.
Qed.

Lemma persistPlugins_plugins (σ σ' : State) (r : Res unit) :
  persistPlugins σ = (r, σ') -> plugins σ' = plugins σ.
Proof. intros H. by apply persistPlugins_frame in H as (fs & -> & _). Qed.

(** What [addPlugin] leaves under the name of the plugin: the plugin, with
    the store's listener unless the call threw. *)
Lemma addPlugin_register (plugin : Obj) (persist : bool) (σ σ' : State) (r : Res Obj) :
  addPlugin plugin persist σ = (r, σ') ->
  plugins σ' = <[toKey (plugin !! "name") := plugin]> (plugins σ) \/
  plugins σ' = <[toKey (plugin !! "name") := subscribe CbPersistPlugins plugin]> (plugins σ).
Proof.
  unfold addPlugin. unfold bind at 1.
  set (σ0 := withPlugins (insert (toKey (plugin !! "name")) plugin) σ).
  unfold bind.
  destruct ((if persist then persistPlugins else ret tt) σ0) as [[[]|e] σ1] eqn:Hp.
  - assert (Hreg : plugins σ1 = plugins σ0).
    { destruct persist; [by eapply persistPlugins_plugins|by injection Hp as <-]. }
    destruct (plugin !! "subscribe").
    + intros [= _ <-]. left. exact Hreg.
    + intros [= _ <-]. right. simpl. rewrite Hreg. apply insert_insert_eq.
  - intros [= _ <-]. left.
    destruct persist; [|done].
    by rewrite (persistPlugins_plugins _ _ _ Hp).
Qed.

Lemma addPlugin_keyed (plugin : Obj) (persist : bool) (σ σ' : State) (r : Res Obj) :
  keyedByName (plugins σ) ->
  addPlugin plugin persist σ = (r, σ') ->
  keyedByName (plugins σ').
Proof.
  intros Hkeyed H. apply addPlugin_register in H as [-> | ->].
  - by apply keyedByName_insert_plain.
  - by apply keyedByName_insert.
Qed.

Lemma removePlugin_register (name : string) (persist : bool) (σ σ' : State) (r : Res bool) :
  removePlugin name persist σ = (r, σ') -> plugins σ' = delete name (plugins σ).
Proof.
  unfold removePlugin, jsDelete, bind.
  destruct persist.
  - destruct (persistPlugins _) as [[[]|e] σ1] eqn:Hp; intros [= _ <-];
      by rewrite (persistPlugins_plugins _ _ _ Hp).
  - by intros [= _ <-].
Qed.

Lemma removePlugin_keyed (name : string) (persist : bool) (σ σ' : State) (r : Res bool) :
  keyedByName (plugins σ) ->
  removePlugin name persist σ = (r, σ') ->
  keyedByName (plugins σ').
Proof.
  intros Hkeyed H. rewrite (removePlugin_register _ _ _ _ _ H).
  by apply keyedByName_delete.
Qed.

(** C7.  When a record is already stored under the name of [plugin],
    [addPlugin] puts [plugin] in its place, keeps nothing of the prior
    record, leaves the other records alone, and [getAllPlugins] afterwards
    lists one record of that name, among as many records as before; this
    holds whether [addPlugin] returns or throws.  It returns, with the
    store's listener on the record, when the plugin has no own [subscribe]
    property and, with [persist], the registry file can be written. *)
Theorem addPlugin_replaces (plugin prior : Obj) (persist : bool) (σ : State) :
  let name := toKey (plugin !! "name") in
  keyedByName (plugins σ) ->
  plugins σ !! name = Some prior ->
  exists r σ' stored all,
    addPlugin plugin persist σ = (r, σ') /\
    (stored = plugin \/ stored = subscribe CbPersistPlugins plugin) /\
    plugins σ' !! name = Some stored /\
    (forall other, other <> name -> plugins σ' !! other = plugins σ !! other) /\
    getAllPlugins σ' = (Ok all, σ') /\
    length (List.filter (fun p : Obj => String.eqb (toKey (p !! "name")) name) all) = 1%nat /\
    length all = size (plugins σ) /\
    (plugin !! "subscribe" = None -> (persist = true -> writable σ) ->
     r = Ok (subscribe CbPersistPlugins plugin) /\
     stored = subscribe CbPersistPlugins plugin).
Proof.
  intros name Hkeyed Hprior.
  destruct (addPlugin plugin persist σ) as [r σ'] eqn:Hrun.
  assert (Hstored : exists stored,
             (stored = plugin \/ stored = subscribe CbPersistPlugins plugin) /\
             toKey (stored !! "name") = name /\
             plugins σ' = <[name := stored]> (plugins σ) /\
             (plugin !! "subscribe" = None -> (persist = true -> writable σ) ->
              r = Ok (subscribe CbPersistPlugins plugin) /\
              stored = subscribe CbPersistPlugins plugin)).
  { assert (Hok : forall stored, plugins σ' = <[name := stored]> (plugins σ) ->
               plugin !! "subscribe" = None -> (persist = true -> writable σ) ->
               r = Ok (subscribe CbPersistPlugins plugin) /\
               stored = subscribe CbPersistPlugins plugin).
    { intros stored Hreg Hsub Hw.
      destruct (addPlugin_run plugin persist σ Hsub Hw) as (σ1 & Hrun1 & Hreg1 & _).
      rewrite Hrun in Hrun1. injection Hrun1 as -> <-. split; [done|].
      assert (Hl : plugins σ' !! name = Some stored) by (rewrite Hreg; apply lookup_insert_eq).
      rewrite Hreg1 in Hl. fold name in Hl. rewrite lookup_insert_eq in Hl. congruence. }
    destruct (addPlugin_register _ _ _ _ _ Hrun) as [Hreg|Hreg].
    - exists plugin. split; [by left|]. split; [done|]. split; [done|]. by apply Hok.
    - exists (subscribe CbPersistPlugins plugin). split; [by right|].
      split; [apply subscribe_name|]. split; [done|]. by apply Hok. }
  destruct Hstored as (stored & Hcase & Hname & Hreg & Hok).
  exists r, σ', stored, (objectValues (plugins σ')).
  split; [reflexivity|]. split; [exact Hcase|]. rewrite Hreg.
  split; [apply lookup_insert_eq|].
  split; [intros other Hne; by apply lookup_insert_ne|].
  split; [unfold getAllPlugins; by rewrite Hreg|].
  split; [|split; [|exact Hok]].
  - eapply objectValues_one_per_name; [|apply lookup_insert_eq].
    intros k p Hk. apply lookup_insert_Some in Hk as [[<- <-]|[_ Hk]]; [done|].
    by apply Hkeyed.
  - unfold objectValues. rewrite length_fmap, length_map_to_list.
    rewrite map_size_insert_Some; [done|]. by rewrite Hprior.
Qed.

Lemma addPlugin_replaces_witness :
  exists σ' all,
    addPlugin newer true (withPlugins (insert "a" doomed) installedState)
      = (Ok (subscribe CbPersistPlugins newer), σ') /\
    plugins σ' !! "a" = Some (subscribe CbPersistPlugins newer) /\
    getAllPlugins σ' = (Ok all, σ') /\
    length (List.filter (fun p : Obj => String.eqb (toKey (p !! "name")) "a") all) = 1%nat.
Proof.
  destruct (addPlugin_replaces newer doomed true
              (withPlugins (insert "a" doomed) installedState))
    as (r & σ' & stored & all & Hrun & _ & Hreg & _ & Hall & Hone & _ & Hok).
  - intros k p Hk. simpl in Hk.
    apply lookup_insert_Some in Hk as [[<- <-]|[_ Hk]]; [reflexivity|].
    by rewrite lookup_empty in Hk.
  - reflexivity.
  - destruct Hok as [-> ->]; [reflexivity| |].
    + intros _. exists "/app/plugins". split; reflexivity.
    + exists σ', all. split; [exact Hrun|]. split; [exact Hreg|].
      split; [exact Hall|exact Hone].
Defined.

(** ** Facts about paths *)

Section PathFacts.

Lemma append_cons (a : Ascii.ascii) (s t : string) :
  String a s +:+ t = String a (s +:+ t).
Proof. reflexivity. Qed.

Lemma append_nil_l (t : string) : "" +:+ t = t.
Proof. reflexivity. Qed.

Lemma append_assoc (a b c : string) : (a +:+ b) +:+ c = a +:+ (b +:+ c).
Proof.
  induction a as [|x a IH]; [done|].
  rewrite !append_cons. f_equal. exact IH.
Qed.

Lemma append_nil_r (a : string) : a +:+ "" = a.
Proof.
  induction a as [|x a IH]; [done|]. rewrite append_cons. f_equal. exact IH.
Qed.

Lemma split_on_nonempty c s : split_on c s <> [].
Proof. destruct s as [|a s]; simpl; [done|]. repeat case_match; done. Qed.

Lemma split_on_app_slash a b :
  split_on slash (a +:+ String slash b)
  = (split_on slash a ++ split_on slash b)%list.
Proof.
  induction a as [|c a IH].
  - reflexivity.
  - rewrite append_cons. simpl. rewrite IH.
    destruct (Ascii.eqb c slash); [done|].
    destruct (split_on slash a) as [|h t] eqn:Hs; [|done].
    by apply split_on_nonempty in Hs.
Qed.

Lemma split_on_noSlash s : hasSlash s = false -> split_on slash s = [s].
Proof.
  induction s as [|c s IH]; simpl; [done|].
  intros [Hc Hs]%orb_false_elim. rewrite Hc, IH; done.
Qed.

Lemma split_on_segments s : Forall (fun seg => hasSlash seg = false) (split_on slash s).
Proof.
  induction s as [|c s IH]; simpl.
  - by constructor.
  - destruct (Ascii.eqb c slash) eqn:Hc.
    + by constructor.
    + destruct (split_on slash s) as [|h t]; [constructor; [|done]|].
      * simpl. by rewrite Hc.
      * inversion IH; subst. constructor; [|done]. simpl. by rewrite Hc.
Qed.

Lemma join_cons2 sep x y l :
  join sep (x :: y :: l) = x +:+ sep +:+ join sep (y :: l).
Proof. reflexivity. Qed.

Lemma split_on_join segs :
  Forall (fun seg => hasSlash seg = false) segs -> segs <> [] ->
  split_on slash (join "/" segs) = segs.
Proof.
  induction 1 as [|x l Hx Hl IH]; [done|]. intros _.
  destruct l as [|y l].
  - simpl. by apply split_on_noSlash.
  - rewrite join_cons2.
    change ("/" +:+ join "/" (y :: l)) with (String slash (join "/" (y :: l))).
    rewrite split_on_app_slash, split_on_noSlash by done.
    by rewrite IH.
Qed.

Lemma join_snoc segs s :
  segs <> [] -> join "/" (segs ++ [s])%list = join "/" segs +:+ "/" +:+ s.
Proof.
  induction segs as [|x l IH]; [done|]. intros _.
  destruct l as [|y l].
  - reflexivity.
  - change ((x :: y :: l) ++ [s])%list with (x :: y :: (l ++ [s]))%list.
    rewrite !join_cons2.
    change (y :: (l ++ [s]))%list with ((y :: l) ++ [s])%list.
    rewrite IH by done.
    by rewrite !append_assoc.
Qed.

Lemma join_app (xs ys : list string) :
  xs <> [] -> ys <> [] ->
  join "/" (xs ++ ys)%list = join "/" xs +:+ "/" +:+ join "/" ys.
Proof.
  induction xs as [|x xs IH]; [done|]. intros _ Hys.
  destruct xs as [|x' xs].
  - destruct ys as [|y ys]; [done|]. reflexivity.
  - change ((x :: x' :: xs) ++ ys)%list with (x :: x' :: (xs ++ ys))%list.
    rewrite !join_cons2.
    change (x' :: (xs ++ ys))%list with ((x' :: xs) ++ ys)%list.
    rewrite IH by done. by rewrite !append_assoc.
Qed.

Lemma eqb_false_of_ne (a b : string) : a <> b -> String.eqb a b = false.
Proof. by intros ?%String.eqb_neq. Qed.

Lemma normStep_proper b stack seg :
  properSegment seg -> normStep b stack seg = seg :: stack.
Proof.
  intros (_ & H1 & H2 & H3). unfold normStep.
  by rewrite !eqb_false_of_ne.
Qed.

Lemma foldl_normStep_proper b segs stack :
  Forall properSegment segs ->
  foldl (normStep b) stack segs = (rev segs ++ stack)%list.
Proof.
  intros H. revert stack. induction H as [|x l Hx _ IH]; intros stack; simpl.
  - done.
  - rewrite normStep_proper by done. rewrite IH.
    by rewrite <- app_assoc.
Qed.

(** Without leave to climb above the root, normalisation keeps only
    segments that name something. *)
Lemma normStep_false_keeps stack seg :
  hasSlash seg = false ->
  Forall properSegment stack -> Forall properSegment (normStep false stack seg).
Proof.
  intros Hseg Hstack. unfold normStep.
  destruct (String.eqb seg "") eqn:E1; [done|].
  destruct (String.eqb seg ".") eqn:E2; [done|]. simpl.
  destruct (String.eqb seg "..") eqn:E3.
  - destruct stack as [|top below]; [done|].
    destruct (String.eqb top ".."); [done|]. by inversion Hstack.
  - constructor; [|done].
    apply String.eqb_neq in E1, E2, E3. done.
Qed.

Lemma normSegments_false_proper segs :
  Forall (fun seg => hasSlash seg = false) segs ->
  Forall properSegment (normSegments false segs).
Proof.
  intros H. unfold normSegments.
  assert (Hgen : forall stack, Forall properSegment stack ->
                   Forall properSegment (foldl (normStep false) stack segs)).
  { induction H as [|x l Hx _ IH]; intros stack Hstack; simpl; [done|].
    apply IH. by apply normStep_false_keeps. }
  apply List.Forall_rev, Hgen. constructor.
Qed.

Lemma startsWithSlash_app (root rest : string) :
  startsWithSlash root = true -> startsWithSlash (root +:+ rest) = true.
Proof. destruct root as [|a root]; [done|]. by rewrite append_cons. Qed.

Lemma startsWithSlash_noSlash (s : string) :
  hasSlash s = false -> startsWithSlash s = false.
Proof. destruct s as [|a s]; simpl; [done|]. by intros [? _]%orb_false_elim. Qed.

(** An absolute path normalises to an absolute path whose segments all
    name something: no "..", "." or empty segment is left. *)
Lemma normalize_absolute (p : string) :
  startsWithSlash p = true ->
  exists segs trailing,
    normalize p = "/" +:+ join "/" segs +:+ trailing /\
    Forall properSegment segs /\
    (trailing = "" \/ trailing = "/").
Proof.
  intros Habs. unfold normalize.
  destruct p as [|a p]; [done|].
  change (String.eqb (String a p) "") with false. cbv iota.
  rewrite Habs. cbv iota. change (negb true) with false.
  destruct (String.eqb (normalizeString (String a p) false) "").
  - exists [], "". split; [reflexivity|]. split; [constructor|by left].
  - exists (normSegments false (split_on slash (String a p))),
           (if endsWithSlash (String a p) then "/" else "").
    split; [reflexivity|]. split.
    + apply normSegments_false_proper, split_on_segments.
    + destruct (endsWithSlash (String a p)); [by right|by left].
Qed.

(** Below an absolute, normalised root, [path.resolve(root, name)] for a
    plain folder name is the child [root/name]. *)
Lemma resolve_child (cwd : string) (rs : list string) (name : string) :
  Forall properSegment rs -> rs <> [] -> properSegment name ->
  resolve cwd [Some ("/" +:+ join "/" rs); Some name]
  = Ok (("/" +:+ join "/" rs) +:+ "/" +:+ name).
Proof.
  intros Hrs Hne Hname.
  assert (Hrs' : Forall (fun seg => hasSlash seg = false) rs).
  { eapply Forall_impl; [exact Hrs|]. by intros ? [? _]. }
  destruct Hname as (Hslash & Hn1 & Hn2 & Hn3).
  unfold resolve. simpl rev. simpl resolveScan.
  rewrite (eqb_false_of_ne name "" Hn1).
  rewrite (startsWithSlash_noSlash name Hslash).
  change (String.eqb ("/" +:+ join "/" rs) "") with false. cbv iota.
  change (startsWithSlash ("/" +:+ join "/" rs)) with true. cbv iota.
  f_equal. unfold normalizeString.
  change (("/" +:+ join "/" rs) +:+ "/" +:+ name +:+ "/" +:+ "")
    with (String slash (join "/" rs +:+ String slash (name +:+ String slash ""))).
  change (split_on slash (String slash ?t)) with ("" :: split_on slash t).
  rewrite !split_on_app_slash, split_on_join, split_on_noSlash by done.
  unfold normSegments. simpl foldl.
  change (normStep false [] "") with (@nil string).
  rewrite foldl_app, (foldl_normStep_proper false rs []) by done.
  simpl. rewrite (normStep_proper false _ name) by done.
  change (normStep false (name :: ?st) "") with (name :: st).
  rewrite app_nil_r.
  change (rev (name :: rev rs)) with (rev (rev rs) ++ [name])%list.
  rewrite rev_involutive, join_snoc by done.
  by rewrite !append_assoc.
Qed.

(** The same for a relative path of plain segments, such as a scoped
    package name. *)
Lemma resolve_below (cwd : string) (rs segs : list string) :
  Forall properSegment rs -> rs <> [] ->
  Forall properSegment segs -> segs <> [] ->
  resolve cwd [Some ("/" +:+ join "/" rs); Some (join "/" segs)]
  = Ok (("/" +:+ join "/" rs) +:+ "/" +:+ join "/" segs).
Proof.
  intros Hrs Hne Hs Hsne.
  assert (Hrs' : Forall (fun seg => hasSlash seg = false) rs).
  { eapply Forall_impl; [exact Hrs|]. by intros ? [? _]. }
  assert (Hs' : Forall (fun seg => hasSlash seg = false) segs).
  { eapply Forall_impl; [exact Hs|]. by intros ? [? _]. }
  assert (Hfirst : String.eqb (join "/" segs) "" = false /\
                   startsWithSlash (join "/" segs) = false).
  { destruct Hs as [|x l (Hx & Hx1 & _) _]; [done|].
    destruct x as [|c x]; [done|]. simpl in Hx.
    apply orb_false_elim in Hx as [Hc _].
    destruct l; [by split|]. rewrite join_cons2, append_cons. by split. }
  destruct Hfirst as [Hf1 Hf2].
  unfold resolve. simpl rev. simpl resolveScan. rewrite Hf1, Hf2.
  change (String.eqb ("/" +:+ join "/" rs) "") with false. cbv iota.
  change (startsWithSlash ("/" +:+ join "/" rs)) with true. cbv iota.
  f_equal. unfold normalizeString.
  change (("/" +:+ join "/" rs) +:+ "/" +:+ join "/" segs +:+ "/" +:+ "")
    with (String slash (join "/" rs +:+ String slash (join "/" segs +:+ String slash ""))).
  change (split_on slash (String slash ?t)) with ("" :: split_on slash t).
  rewrite !split_on_app_slash, !split_on_join by done.
  unfold normSegments. simpl foldl.
  change (normStep false [] "") with (@nil string).
  rewrite !foldl_app, (foldl_normStep_proper false rs []) by done.
  rewrite (foldl_normStep_proper false segs) by done. simpl foldl.
  rewrite app_nil_r.
  assert (Hskip : forall st, st <> [] -> Forall properSegment st ->
                    normStep false st "" = st) by (by intros [|? ?]).
  rewrite Hskip.
  - rewrite rev_app_distr, !rev_involutive, join_app by done.
    by rewrite !append_assoc.
  - destruct segs; [done|]. simpl. by destruct (rev segs).
  - apply Forall_app. split; by apply List.Forall_rev.
Qed.

End PathFacts.

(** ** The asset protocol *)

(** C4 (as the code has it).  With an absolute plugins root, the handler of
    the [plugin] scheme answers every request with a path, never with an
    error: the normal form of the root followed by the request URL from its
    ninth character on.  Parent-directory segments are resolved away by the
    normalisation, so the path answered is absolute and has no "..", "." or
    empty segment left; nothing ties it to the plugins root. *)
Theorem registerPluginProtocol_spec (requestUrl : string) (σ : State) (root : string) :
  pluginsPath σ = Some root ->
  startsWithSlash root = true ->
  exists segs trailing,
    registerPluginProtocol requestUrl σ
      = (Ok (mkResponse ("/" +:+ join "/" segs +:+ trailing)), σ) /\
    "/" +:+ join "/" segs +:+ trailing = normalize (root +:+ substr 8 requestUrl) /\
    Forall properSegment segs /\
    (trailing = "" \/ trailing = "/").
Proof.
  intros Hroot Habs.
  destruct (normalize_absolute (root +:+ substr 8 requestUrl))
    as (segs & trailing & Hnorm & Hsegs & Htrail).
  { by apply startsWithSlash_app. }
  exists segs, trailing.
  unfold registerPluginProtocol. rewrite Hroot, Hnorm. done.
Qed.

Lemma registerPluginProtocol_spec_witness :
  exists segs trailing,
    registerPluginProtocol "plugin://foo/index.js" freshState
      = (Ok (mkResponse ("/" +:+ join "/" segs +:+ trailing)), freshState) /\
    "/" +:+ join "/" segs +:+ trailing
      = normalize ("/app/plugins" +:+ substr 8 "plugin://foo/index.js") /\
    Forall properSegment segs /\
    (trailing = "" \/ trailing = "/").
Proof.
  apply (registerPluginProtocol_spec "plugin://foo/index.js" freshState "/app/plugins");
    reflexivity.
Defined.

(** C4, counterexample: a request with parent-directory segments is
    answered with a path outside the plugins root. *)
Lemma registerPluginProtocol_escapes :
  pluginsPath freshState = Some "/app/plugins" /\
  registerPluginProtocol "plugin://../../etc/passwd" freshState
    = (Ok (mkResponse "/etc/passwd"), freshState) /\
  under "/app/plugins" "/etc/passwd" = false.
Proof. repeat split. Qed.

(** ** Loading one entry *)

Lemma rmdirSync_folder (dir : string) (fs : FS) :
  dir ∈ folders fs ->
  exists fs', rmdirSync dir fs = (Ok tt, fs') /\
    writes fs' = writes fs /\
    (forall p, under dir p = true -> files fs' !! p = None /\ p ∉ folders fs') /\
    (forall p, under dir p = false ->
       files fs' !! p = files fs !! p /\ (p ∈ folders fs' <-> p ∈ folders fs)).
Proof.
  intros Hdir. unfold rmdirSync. rewrite bool_decide_eq_true_2 by done.
  eexists. split; [reflexivity|]. simpl. split; [done|]. split.
  - intros p Hp. split.
    + apply map_lookup_filter_None. right. intros x _. simpl. congruence.
    + rewrite elem_of_filter. intros [? _]. congruence.
  - intros p Hp. split.
    + destruct (files fs !! p) as [c|] eqn:Hc.
      * by apply map_lookup_filter_Some.
      * apply map_lookup_filter_None. by left.
    + rewrite elem_of_filter. tauto.
Qed.

Lemma reconstruct_absent (base : Obj) (l : list (string * Json)) (k : string) :
  k ∉ l.*1 ->
  foldl (fun (o : Obj) kv => <[kv.1 := VJson kv.2]> o) base l !! k = base !! k.
Proof.
  revert base. induction l as [|[k' v'] l IH]; intros base Hk; simpl; [done|].
  rewrite fmap_cons, not_elem_of_cons in Hk. destruct Hk as [Hne Hk].
  rewrite IH by done. by rewrite lookup_insert_ne.
Qed.

Lemma reconstruct_present (base : Obj) (l : list (string * Json)) (k : string) (v : Json) :
  NoDup l.*1 -> (k, v) ∈ l ->
  foldl (fun (o : Obj) kv => <[kv.1 := VJson kv.2]> o) base l !! k = Some (VJson v).
Proof.
  revert base. induction l as [|[k' v'] l IH]; intros base Hnd Hin; simpl.
  - by apply elem_of_nil in Hin.
  - rewrite fmap_cons in Hnd. apply NoDup_cons in Hnd as [Hk' Hnd].
    apply elem_of_cons in Hin as [Heq|Hin].
    + inversion Heq; subst k' v'.
      rewrite reconstruct_absent by done. apply lookup_insert_eq.
    + by apply IH.
Qed.

Lemma reconstruct_member (base : Obj) (l : list (string * Json)) (k : string) :
  k ∈ l.*1 ->
  is_Some (foldl (fun (o : Obj) kv => <[kv.1 := VJson kv.2]> o) base l !! k).
Proof.
  revert base. induction l as [|[k' v'] l IH]; intros base Hk; simpl.
  - by apply elem_of_nil in Hk.
  - destruct (decide (k ∈ l.*1)) as [Hin|Hout]; [by apply IH|].
    rewrite fmap_cons in Hk. apply elem_of_cons in Hk as [->|?]; [|done].
    rewrite reconstruct_absent by done. simpl. rewrite lookup_insert_eq. eauto.
Qed.

(** C8 (as the code has it).  [loadPlugin] on a stored entry (an object).
    If the entry is marked with [_toUninstall] and the folder that
    [path.resolve] makes of the plugins root and its name exists, that
    folder goes with everything below it, nothing else on disk changes, and
    the register is left as it was: the entry is not registered.  The folder
    is [root/name] when the name is a relative path of plain segments below
    an absolute root; nothing confines it to the root otherwise.  If the
    entry is not marked, a record is rebuilt from it (every field of the
    entry) and stored under its name, and the disk is not touched: no write
    for the single record.  [loadPlugin] then returns, the record carrying
    the store's listener, unless the entry has a [subscribe] field: then it
    throws a [TypeError] and the record stays registered without listener. *)
Theorem loadPlugin_spec (entries : list (string * Json)) (σ : State) :
  (truthyJ (assoc "_toUninstall" entries) = true ->
   forall root name dir,
     pluginsPath σ = Some root ->
     assoc "name" entries = Some (JStr name) ->
     resolve (cwd σ) [Some root; Some name] = Ok dir ->
     dir ∈ folders (disk σ) ->
     exists σ', loadPlugin (JObj entries) σ = (Ok tt, σ') /\
       plugins σ' = plugins σ /\
       writes (disk σ') = writes (disk σ) /\
       (forall p, under dir p = true ->
          files (disk σ') !! p = None /\ p ∉ folders (disk σ')) /\
       (forall p, under dir p = false ->
          files (disk σ') !! p = files (disk σ) !! p /\
          (p ∈ folders (disk σ') <-> p ∈ folders (disk σ))) /\
       (forall rs segs, root = "/" +:+ join "/" rs ->
          Forall properSegment rs -> rs <> [] ->
          name = join "/" segs -> Forall properSegment segs -> segs <> [] ->
          dir = root +:+ "/" +:+ name)) /\
  (truthyJ (assoc "_toUninstall" entries) = false ->
   let plain := reconstruct (JObj entries) in
   let record := subscribe CbPersistPlugins plain in
   exists r σ' stored,
     loadPlugin (JObj entries) σ = (r, σ') /\
     plugins σ' = <[toKey (plain !! "name") := stored]> (plugins σ) /\
     disk σ' = disk σ /\
     ("subscribe" ∉ entries.*1 -> r = Ok tt /\ stored = record) /\
     ("subscribe" ∈ entries.*1 ->
      r = Throw (TypeError "plugin.subscribe is not a function") /\ stored = plain) /\
     (forall k v, NoDup entries.*1 -> (k, v) ∈ entries ->
        plain !! k = Some (VJson v) /\
        (k <> "_listeners" -> record !! k = Some (VJson v)))).
Proof.
  split.
  - intros Hmark root name dir Hroot Hname Hres Hdir.
    destruct (rmdirSync_folder dir (disk σ) Hdir) as (fs' & Hrm & Hw & Hgone & Hkept).
    exists (withDisk fs' σ).
    split; [|split; [done|split; [done|split; [done|split; [done|]]]]].
    + unfold loadPlugin, bind, liftRes. simpl getProp. cbv iota beta.
      rewrite Hmark. cbv iota beta. simpl getProp. cbv iota beta.
      rewrite Hname, Hroot. simpl asString. rewrite Hres, Hrm. done.
    + intros rs segs -> Hrs Hne -> Hs Hsne.
      rewrite resolve_below in Hres by done. by inversion Hres.
  - intros Hmark plain record.
    assert (Hload : loadPlugin (JObj entries) σ
                    = (addPlugin plain false ;;; ret tt) σ).
    { unfold loadPlugin, bind, liftRes. simpl getProp. cbv iota beta.
      by rewrite Hmark. }
    assert (Hfields : forall k v, NoDup entries.*1 -> (k, v) ∈ entries ->
               plain !! k = Some (VJson v) /\
               (k <> "_listeners" -> record !! k = Some (VJson v))).
    { intros k v Hnd Hin.
      assert (Hp : plain !! k = Some (VJson v)) by (by apply reconstruct_present).
      split; [exact Hp|]. intros Hk. unfold record.
      by rewrite subscribe_lookup_ne. }
    destruct (decide ("subscribe" ∈ entries.*1)) as [Hin|Hout].
    + destruct (reconstruct_member (newPlugin None) entries "subscribe" Hin) as [v Hv].
      eexists _, _, plain. split.
      { rewrite Hload. unfold bind.
        by rewrite (addPlugin_false_shadowed plain v σ Hv). }
      simpl. split; [done|]. split; [done|]. split; [done|].
      split; [done|exact Hfields].
    + assert (Hv : plain !! "subscribe" = None).
      { unfold plain, reconstruct. simpl forIn. by rewrite reconstruct_absent. }
      eexists _, _, record. split.
      { rewrite Hload. unfold bind. by rewrite (addPlugin_false plain σ Hv). }
      simpl. split; [done|]. split; [done|]. split; [done|].
      split; [done|exact Hfields].
Qed.

(** ** Loading the register *)

Lemma clearLoop_run (l : list Obj) (σ : State) :
  forEach (fun plugin : Obj => removePlugin (toKey (plugin !! "name")) false ;;; ret tt) l σ
  = (Ok tt,
     withPlugins (fun reg =>
        foldl (fun (m : gmap string Obj) (plugin : Obj) =>
                 delete (toKey (plugin !! "name")) m) reg l) σ).
Proof.
  revert σ. induction l as [|x l IH]; intros σ; simpl.
  - by destruct σ.
  - unfold bind at 1. unfold bind at 1. unfold removePlugin at 1. simpl.
    rewrite IH. reflexivity.
Qed.

Lemma clearPlugins_run (σ : State) :
  clearPlugins σ = (Ok tt, withPlugins cleared σ).
Proof. unfold clearPlugins, bind, getAllPlugins. by rewrite clearLoop_run. Qed.

Lemma foldl_delete_lookup (l : list Obj) (reg : gmap string Obj) (k : string) :
  foldl (fun (m : gmap string Obj) (plugin : Obj) => delete (toKey (plugin !! "name")) m)
        reg l !! k
  = if bool_decide (k ∈ (fun plugin : Obj => toKey (plugin !! "name")) <$> l)
    then None else reg !! k.
Proof.
  revert reg. induction l as [|x l IH]; intros reg; [done|].
  rewrite fmap_cons. simpl foldl. rewrite IH.
  destruct (decide (k = toKey (x !! "name"))) as [->|Hne].
  - rewrite lookup_delete_eq.
    rewrite (bool_decide_eq_true_2 (_ ∈ _ :: _)) by apply list_elem_of_here.
    by case_bool_decide.
  - rewrite lookup_delete_ne by done.
    erewrite (bool_decide_ext (k ∈ _ :: _)); [reflexivity|].
    rewrite elem_of_cons. tauto.
Qed.

Lemma cleared_keyed (reg : gmap string Obj) :
  keyedByName reg -> cleared reg = ∅.
Proof.
  intros Hkeyed. apply map_eq. intros k. rewrite lookup_empty.
  unfold cleared. rewrite foldl_delete_lookup.
  case_bool_decide as Hk; [done|].
  destruct (reg !! k) as [p|] eqn:Hp; [|done].
  exfalso. apply Hk. apply list_elem_of_fmap. exists p.
  split; [symmetry; by apply Hkeyed|].
  apply elem_of_objectValues. eauto.
Qed.

(** [usePlugins] up to the [try]: with a path given and a parsable registry
    file in place, what is left to run is the guarded loop, from the reset
    state. *)
Lemma usePlugins_unfold (plgPath : string) (σ : State) (stored : Json) :
  plgPath <> "" ->
  files (disk σ) !! pluginsFileOf plgPath = Some (Doc stored) ->
  usePlugins plgPath σ
  = tryCatch (loadEntries stored ;;; persistPlugins) (fun _ => throw rebuildError)
             (resetState plgPath σ).
Proof.
  intros Hne Hfile. unfold usePlugins.
  rewrite (eqb_false_of_ne _ _ Hne). simpl andb. cbv iota. simpl negb. cbv iota.
  unfold bind at 1. unfold setPluginsPath at 1.
  unfold bind at 1. rewrite clearPlugins_run.
  unfold bind at 1. unfold getPluginsFile at 1.
  unfold withPlugins, existsSync.
  cbn [disk plugins confirmInstall pluginsPath cwd fetchPackage].
  rewrite (bool_decide_eq_true_2 (is_Some _)) by (rewrite Hfile; eauto).
  cbn [orb].
  unfold bind at 1. unfold readJson, readFileSync.
  cbn [disk plugins confirmInstall pluginsPath cwd fetchPackage].
  rewrite Hfile. reflexivity.
Qed.

(** A [loadPlugin] that throws has not touched the register, unless the
    entry has a [subscribe] field: the record rebuilt from it is then in the
    register, without listener. *)
Lemma loadPlugin_throw_register (plg : Json) (σ σ' : State) (e : Exn) :
  loadPlugin plg σ = (Throw e, σ') ->
  (plugins σ' = plugins σ \/
   plugins σ' = <[toKey (reconstruct plg !! "name") := reconstruct plg]> (plugins σ)) /\
  (reconstruct plg !! "subscribe" = None -> plugins σ' = plugins σ).
Proof.
  unfold loadPlugin, bind, liftRes.
  destruct (getProp plg "_toUninstall") as [t|e1]; [|by intros [= _ <-]; auto].
  destruct (truthyJ t).
  - destruct (getProp plg "name") as [n|e2]; [|by intros [= _ <-]; auto].
    destruct (resolve _ _) as [dir|e3]; [|by intros [= _ <-]; auto].
    unfold rmdirSync. repeat case_match; by intros [= _ <-]; auto.
  - destruct (reconstruct plg !! "subscribe") as [v|] eqn:Hsub.
    + rewrite (addPlugin_false_shadowed _ v σ Hsub). intros [= _ <-].
      split; [by right|done].
    + rewrite (addPlugin_false _ σ Hsub). unfold ret. by intros [= ].
Qed.

(** C3 (as the code has it).  When an entry of the registry file fails to
    load, [usePlugins] throws the error "Could not successfully rebuild list
    of installed plugins ..." and nothing is rolled back: the state is the
    one the failing entry left, and the register holds what the entries
    before it had built (and, when the failing entry has a [subscribe]
    field, the record rebuilt from that entry as well). *)
Theorem usePlugins_failure (root : string) (σ : State) (stored : Json)
    (pre post : list (string * Json)) (bad : string * Json)
    (σm σ2 : State) (e : Exn) :
  root <> "" ->
  files (disk σ) !! pluginsFileOf root = Some (Doc stored) ->
  forIn stored = (pre ++ bad :: post)%list ->
  forEach (fun entry : string * Json => loadPlugin entry.2) pre (resetState root σ)
    = (Ok tt, σm) ->
  loadPlugin bad.2 σm = (Throw e, σ2) ->
  usePlugins root σ = (Throw rebuildError, σ2) /\
  (plugins σ2 = plugins σm \/
   plugins σ2
   = <[toKey (reconstruct bad.2 !! "name") := reconstruct bad.2]> (plugins σm)) /\
  (reconstruct bad.2 !! "subscribe" = None -> plugins σ2 = plugins σm).
Proof.
  intros Hne Hfile Hsplit Hpre Hbad. split.
  - rewrite (usePlugins_unfold root σ stored Hne Hfile).
    unfold tryCatch. erewrite bind_throw; [reflexivity|].
    unfold loadEntries. rewrite Hsplit.
    rewrite (forEach_app _ _ _ _ _ Hpre). simpl.
    by apply bind_throw.
  - by eapply loadPlugin_throw_register.
Qed.

Lemma usePlugins_failure_witness :
  let σm := (forEach (fun entry : string * Json => loadPlugin entry.2) [entryA]
                     (resetState "/app/plugins" corruptState)).2 in
  usePlugins "/app/plugins" corruptState = (Throw rebuildError, σm) /\
  plugins σm = plugins σm.
Proof.
  intros σm.
  destruct (usePlugins_failure "/app/plugins" corruptState corruptDoc
           [entryA] [] ("b", JNull) σm σm
           (TypeError "Cannot read properties of null")) as (Hrun & _ & Hreg).
  - discriminate.
  - reflexivity.
  - reflexivity.
  - reflexivity.
  - reflexivity.
  - split; [exact Hrun|]. apply Hreg. reflexivity.
Defined.

(** C3, counterexample: the load of [corruptDoc] fails on its second entry
    and leaves the first one registered. *)
Lemma usePlugins_leaves_partial_register :
  (usePlugins "/app/plugins" corruptState).1 = Throw rebuildError /\
  plugins (usePlugins "/app/plugins" corruptState).2 !! "a"
    = Some (subscribe CbPersistPlugins (reconstruct entryA.2)).
Proof. split; reflexivity. Qed.

Lemma loadPlugin_spec_witness :
  (exists σ', loadPlugin (JObj markedEntry) installedState = (Ok tt, σ') /\
     plugins σ' = plugins installedState /\
     files (disk σ') !! "/app/plugins/a/index.js" = None /\
     "/app/plugins/a" ∉ folders (disk σ')) /\
  (exists σ', loadPlugin (JObj keptEntry) installedState = (Ok tt, σ') /\
     disk σ' = disk installedState /\
     plugins σ' !! "b"
       = Some (subscribe CbPersistPlugins (reconstruct (JObj keptEntry)))).
Proof.
  split.
  - destruct (proj1 (loadPlugin_spec markedEntry installedState) eq_refl
                "/app/plugins" "a" "/app/plugins/a" eq_refl eq_refl eq_refl)
      as (σ' & Hrun & Hreg & _ & Hgone & _).
    { apply elem_of_union_r, elem_of_singleton. reflexivity. }
    exists σ'. split; [exact Hrun|]. split; [exact Hreg|].
    split.
    + apply (Hgone "/app/plugins/a/index.js"). reflexivity.
    + apply (Hgone "/app/plugins/a"). reflexivity.
  - destruct (proj2 (loadPlugin_spec keptEntry installedState) eq_refl)
      as (r & σ' & stored & Hrun & Hreg & Hdisk & Hplain & _).
    destruct Hplain as [-> ->].
    { apply (bool_decide_unpack _). reflexivity. }
    exists σ'. split; [exact Hrun|]. split; [exact Hdisk|].
    rewrite Hreg. apply lookup_insert_eq.
Defined.

(** C8, counterexample: an entry marked for removal whose name is an
    absolute path.  [path.resolve] drops the plugins root, and the folder
    that goes lies outside it. *)
Lemma loadPlugin_removes_outside_root :
  let σ := (loadPlugin (JObj outsideEntry) sharedDiskState).2 in
  pluginsPath sharedDiskState = Some "/app/plugins" /\
  "/srv/data" ∈ folders (disk sharedDiskState) /\
  under "/app/plugins" "/srv/data" = false /\
  (loadPlugin (JObj outsideEntry) sharedDiskState).1 = Ok tt /\
  ("/srv/data" ∉ folders (disk σ)) /\
  files (disk σ) !! "/srv/data/keep.txt" = None.
Proof.
  cbv zeta.
  split; [reflexivity|]. split; [set_solver|]. split; [reflexivity|].
  assert (Hd : "/srv/data" ∈ folders (disk sharedDiskState)) by set_solver.
  destruct (rmdirSync_folder "/srv/data" (disk sharedDiskState) Hd)
    as (fs' & Hrm & Hw & Hgone & Hkept).
  assert (Hrun : loadPlugin (JObj outsideEntry) sharedDiskState
                 = (Ok tt, withDisk fs' sharedDiskState)).
  { unfold loadPlugin, bind, liftRes. simpl getProp. cbv iota beta.
    change (truthyJ (Some (JBool true))) with true. cbv iota beta.
    change (getProp (JObj outsideEntry) "name") with (Ok (Some (JStr "/srv/data"))).
    cbv iota beta.
    replace (resolve (cwd sharedDiskState)
               [pluginsPath sharedDiskState; asString (Some (JStr "/srv/data"))])
      with (Ok (A:=string) "/srv/data") by (vm_compute; reflexivity).
    rewrite Hrm. done. }
  rewrite Hrun. simpl.
  split; [done|]. split.
  - apply (Hgone "/srv/data"). reflexivity.
  - apply (Hgone "/srv/data/keep.txt"). reflexivity.
Qed.

(** ** Persist, then load *)

Lemma foldl_insert_absent {A B} (f : A -> string) (g : A -> B)
    (base : gmap string B) (l : list A) (k : string) :
  k ∉ f <$> l ->
  foldl (fun (m : gmap string B) (x : A) => <[f x := g x]> m) base l !! k = base !! k.
Proof.
  revert base. induction l as [|x l IH]; intros base Hk; [done|].
  rewrite fmap_cons, not_elem_of_cons in Hk. destruct Hk as [Hne Hk].
  simpl. rewrite IH by done. by rewrite lookup_insert_ne.
Qed.

Lemma foldl_insert_present {A B} (f : A -> string) (g : A -> B)
    (base : gmap string B) (l : list A) (x : A) :
  NoDup (f <$> l) -> x ∈ l ->
  foldl (fun (m : gmap string B) (x : A) => <[f x := g x]> m) base l !! f x = Some (g x).
Proof.
  revert base. induction l as [|y l IH]; intros base Hnd Hin.
  - by apply elem_of_nil in Hin.
  - rewrite fmap_cons in Hnd. apply NoDup_cons in Hnd as [Hy Hnd].
    simpl. apply elem_of_cons in Hin as [->|Hin].
    + rewrite foldl_insert_absent by done. apply lookup_insert_eq.
    + by apply IH.
Qed.

Lemma assoc_absent (k : string) (l : list (string * Json)) :
  k ∉ l.*1 -> assoc k l = None.
Proof.
  induction l as [|[k' v'] l IH]; intros Hk; simpl; [done|].
  rewrite fmap_cons, not_elem_of_cons in Hk. destruct Hk as [Hne Hk].
  simpl in Hne. rewrite (eqb_false_of_ne _ _ Hne). by apply IH.
Qed.

Lemma assoc_present (k : string) (v : Json) (l : list (string * Json)) :
  NoDup l.*1 -> (k, v) ∈ l -> assoc k l = Some v.
Proof.
  induction l as [|[k' v'] l IH]; intros Hnd Hin; simpl.
  - by apply elem_of_nil in Hin.
  - rewrite fmap_cons in Hnd. apply NoDup_cons in Hnd as [Hk' Hnd].
    apply elem_of_cons in Hin as [Heq|Hin].
    + inversion Heq; subst. by rewrite String.eqb_refl.
    + destruct (String.eqb k k') eqn:E; [|by apply IH].
      apply String.eqb_eq in E as ->. exfalso. apply Hk'.
      apply list_elem_of_fmap. by exists (k', v).
Qed.

Lemma assoc_map_to_list (m : gmap string Json) (k : string) :
  assoc k (map_to_list m) = m !! k.
Proof.
  destruct (m !! k) as [v|] eqn:Hk.
  - apply assoc_present; [apply NoDup_fst_map_to_list|].
    by apply elem_of_map_to_list.
  - apply assoc_absent. intros Hin.
    apply list_elem_of_fmap in Hin as [[k' v'] [-> Hin]].
    apply elem_of_map_to_list in Hin. simpl in Hk. congruence.
Qed.

Lemma persistedFields_lookup (o : Obj) (k : string) :
  persistedFields o !! k
  = if bool_decide (k = "_listeners" \/ k = "dependencies") then None
    else toJson <$> o !! k.
Proof.
  unfold persistedFields. rewrite lookup_fmap.
  case_bool_decide as Hk.
  - destruct Hk as [->| ->].
    + rewrite lookup_delete_ne by done. by rewrite lookup_delete_eq.
    + by rewrite lookup_delete_eq.
  - rewrite !lookup_delete_ne; [done|intros <-; tauto|intros <-; tauto].
Qed.

(** A rebuilt record has the written fields, and for the rest what a new
    [Plugin] has. *)
Lemma reconstruct_persistEntry (o : Obj) (k : string) :
  reconstruct (persistEntry o) !! k
  = match persistedFields o !! k with
    | Some v => Some (VJson v)
    | None => newPlugin None !! k
    end.
Proof.
  unfold reconstruct, persistEntry. fold (persistedFields o). simpl forIn.
  destruct (persistedFields o !! k) as [v|] eqn:Hk.
  - apply (reconstruct_present _ _ k v); [apply NoDup_fst_map_to_list|].
    by apply elem_of_map_to_list.
  - apply reconstruct_absent. intros Hin.
    apply list_elem_of_fmap in Hin as [[k' v'] [-> Hin]].
    apply elem_of_map_to_list in Hin. simpl in Hk. congruence.
Qed.

Lemma toKey_toJson (v : option Value) : toKey (VJson <$> (toJson <$> v)) = toKey v.
Proof. by destruct v as [[j|cbs]|]. Qed.

Lemma truthy_toJson (v : option Value) : truthyJ (toJson <$> v) = truthy v.
Proof. by destruct v as [[j|cbs]|]. Qed.

Lemma rebuilt_name (o : Obj) : toKey (rebuilt o !! "name") = toKey (o !! "name").
Proof.
  unfold rebuilt. rewrite subscribe_name, reconstruct_persistEntry.
  rewrite persistedFields_lookup. rewrite bool_decide_eq_false_2.
  - by destruct (o !! "name") as [[j|cbs]|].
  - intros [?|?]; discriminate.
Qed.

(** [loadPlugin] on what was written for a record that is not marked. *)
Lemma reconstruct_persistEntry_subscribe (o : Obj) :
  o !! "subscribe" = None -> reconstruct (persistEntry o) !! "subscribe" = None.
Proof.
  intros Hsub. rewrite reconstruct_persistEntry, persistedFields_lookup.
  rewrite bool_decide_eq_false_2 by (intros [?|?]; discriminate).
  by rewrite Hsub.
Qed.

Lemma loadPlugin_persistEntry (o : Obj) (σ : State) :
  truthy (o !! "_toUninstall") = false ->
  o !! "subscribe" = None ->
  loadPlugin (persistEntry o) σ
  = (Ok tt, withPlugins (insert (toKey (o !! "name")) (rebuilt o)) σ).
Proof.
  intros Hmark Hsub.
  unfold loadPlugin, bind, liftRes. unfold persistEntry at 1.
  fold (persistedFields o). simpl getProp. cbv iota beta.
  rewrite assoc_map_to_list, persistedFields_lookup.
  rewrite bool_decide_eq_false_2 by (intros [?|?]; discriminate).
  rewrite truthy_toJson, Hmark. cbv iota.
  rewrite addPlugin_false by (by apply reconstruct_persistEntry_subscribe).
  fold (rebuilt o).
  rewrite <- (subscribe_name CbPersistPlugins (reconstruct (persistEntry o))).
  fold (rebuilt o). by rewrite rebuilt_name.
Qed.

(** The loop over the written entries, from any state. *)
Lemma loadLoop_run (reg : gmap string Obj) (l : list (string * Json)) (σ : State) :
  Forall (fun ke => exists o, reg !! ke.1 = Some o /\ ke.2 = persistEntry o) l ->
  keyedByName reg ->
  (forall k o, reg !! k = Some o -> truthy (o !! "_toUninstall") = false) ->
  (forall k o, reg !! k = Some o -> o !! "subscribe" = None) ->
  forEach (fun entry : string * Json => loadPlugin entry.2) l σ
  = (Ok tt,
     withPlugins (fun m =>
        foldl (fun (m : gmap string Obj) (ke : string * Json) =>
                 <[ke.1 := subscribe CbPersistPlugins (reconstruct ke.2)]> m) m l) σ).
Proof.
  intros Hl Hkeyed Hmark Hplain. revert σ.
  induction Hl as [|[k e] l (o & Ho & He) _ IH]; intros σ; simpl.
  - by destruct σ.
  - simpl in Ho, He. subst e.
    unfold bind at 1.
    rewrite (loadPlugin_persistEntry o σ (Hmark _ _ Ho) (Hplain _ _ Ho)).
    rewrite IH. rewrite (Hkeyed _ _ Ho). reflexivity.
Qed.

Lemma loaded_register (reg : gmap string Obj) :
  foldl (fun (m : gmap string Obj) (ke : string * Json) =>
           <[ke.1 := subscribe CbPersistPlugins (reconstruct ke.2)]> m)
        ∅ (map_to_list (persistEntry <$> reg))
  = rebuilt <$> reg.
Proof.
  apply map_eq. intros k. rewrite lookup_fmap.
  destruct (reg !! k) as [o|] eqn:Ho; simpl.
  - change k with ((k, persistEntry o).1) at 1.
    rewrite (foldl_insert_present fst
               (fun ke : string * Json => subscribe CbPersistPlugins (reconstruct ke.2))).
    + reflexivity.
    + apply NoDup_fst_map_to_list.
    + apply elem_of_map_to_list. by rewrite lookup_fmap, Ho.
  - rewrite (foldl_insert_absent fst
               (fun ke : string * Json => subscribe CbPersistPlugins (reconstruct ke.2))).
    + apply lookup_empty.
    + intros Hin. apply list_elem_of_fmap in Hin as [[k' e] [-> Hin]].
      apply elem_of_map_to_list in Hin. rewrite lookup_fmap in Hin.
      simpl in Ho. by rewrite Ho in Hin.
Qed.

Lemma rebuilt_field (o : Obj) (k : string) (v : Json) :
  k <> "_listeners" -> k <> "dependencies" ->
  o !! k = Some (VJson v) -> rebuilt o !! k = Some (VJson v).
Proof.
  intros H1 H2 Hk. unfold rebuilt.
  rewrite subscribe_lookup_ne by done.
  rewrite reconstruct_persistEntry, persistedFields_lookup.
  rewrite bool_decide_eq_false_2 by tauto. by rewrite Hk.
Qed.

Lemma rebuilt_flag (o : Obj) (k : string) :
  k = "_active" \/ k = "_toUninstall" ->
  truthy (rebuilt o !! k) = truthy (o !! k).
Proof.
  intros Hk. unfold rebuilt.
  rewrite subscribe_lookup_ne by (destruct Hk as [->| ->]; discriminate).
  rewrite reconstruct_persistEntry, persistedFields_lookup.
  rewrite bool_decide_eq_false_2 by (destruct Hk as [->| ->]; intros [?|?]; discriminate).
  destruct (o !! k) as [[j|cbs]|]; simpl; try done.
  by destruct Hk as [->| ->].
Qed.

Lemma rebuilt_ephemeral (o : Obj) :
  rebuilt o !! "_listeners" = Some (VCallbacks [CbPersistPlugins]) /\
  rebuilt o !! "dependencies" = None.
Proof.
  unfold rebuilt. split.
  - unfold subscribe. rewrite lookup_insert_eq.
    rewrite reconstruct_persistEntry, persistedFields_lookup.
    rewrite (bool_decide_eq_true_2 (_ \/ _)) by (by left). reflexivity.
  - rewrite subscribe_lookup_ne by done.
    rewrite reconstruct_persistEntry, persistedFields_lookup.
    rewrite (bool_decide_eq_true_2 (_ \/ _)) by (by right). reflexivity.
Qed.

(** The load that follows a persist rebuilds every record that is not
    marked for removal. *)
Lemma usePlugins_after_persist (σ : State) (root : string) :
  root <> "" ->
  canWrite (pluginsFileOf root) (disk σ) = true ->
  keyedByName (plugins σ) ->
  (forall k o, plugins σ !! k = Some o -> truthy (o !! "_toUninstall") = false) ->
  (forall k o, plugins σ !! k = Some o -> o !! "subscribe" = None) ->
  exists σ2,
    usePlugins root
      (withDisk (written (pluginsFileOf root) (Doc (persistedDoc (plugins σ)))
                               (disk σ)) σ)
    = (Ok tt, σ2) /\
    plugins σ2 = rebuilt <$> plugins σ.
Proof.
  intros Hne Hcan Hkeyed Hmark Hplain.
  eexists. split.
  - rewrite (usePlugins_unfold root _ (persistedDoc (plugins σ)) Hne)
      by apply lookup_insert_eq.
    unfold tryCatch.
    erewrite bind_ok; cycle 1.
    { unfold loadEntries, persistedDoc. simpl forIn.
      apply (loadLoop_run (plugins σ)); [|done|done|done].
      apply Forall_forall. intros [k e] Hin.
      apply elem_of_map_to_list in Hin. rewrite lookup_fmap in Hin.
      destruct (plugins σ !! k) as [o|] eqn:Ho; [|done].
      exists o. simpl in *. split; congruence. }
    rewrite (persistPlugins_ok _ root) by (done || by apply canWrite_written).
    reflexivity.
  - simpl. rewrite (cleared_keyed _ Hkeyed). apply loaded_register.
Qed.

(** C2 (as the code has it).  For a register of records keyed by their
    names, none of them marked for removal or carrying a field of its own
    named [subscribe], and a registry file that can be written (its folder
    is there), [persistPlugins] followed by [usePlugins] on the same root
    gives a register with the same names; each
    record comes back with every JSON field it had, [name], [source],
    [_active] and [_toUninstall] among them, and with its two flags read the
    same; the written entries have neither [_listeners] nor [dependencies],
    and after the load these two are those of a new plugin that the store
    has subscribed to. *)
Theorem persist_load_roundtrip (σ : State) (root : string) :
  pluginsPath σ = Some root ->
  root <> "" ->
  canWrite (pluginsFileOf root) (disk σ) = true ->
  keyedByName (plugins σ) ->
  (forall k o, plugins σ !! k = Some o -> truthy (o !! "_toUninstall") = false) ->
  (forall k o, plugins σ !! k = Some o -> o !! "subscribe" = None) ->
  exists σ1 σ2,
    persistPlugins σ = (Ok tt, σ1) /\
    files (disk σ1) !! pluginsFileOf root = Some (Doc (persistedDoc (plugins σ))) /\
    (forall name fields,
        (name, JObj fields) ∈ forIn (persistedDoc (plugins σ)) ->
        assoc "_listeners" fields = None /\ assoc "dependencies" fields = None) /\
    usePlugins root σ1 = (Ok tt, σ2) /\
    dom (plugins σ2) = dom (plugins σ) /\
    (forall name o, plugins σ !! name = Some o ->
       exists o', plugins σ2 !! name = Some o' /\
         (forall k v, k <> "_listeners" -> k <> "dependencies" ->
            o !! k = Some (VJson v) -> o' !! k = Some (VJson v)) /\
         truthy (o' !! "_active") = truthy (o !! "_active") /\
         truthy (o' !! "_toUninstall") = truthy (o !! "_toUninstall") /\
         o' !! "_listeners" = Some (VCallbacks [CbPersistPlugins]) /\
         o' !! "dependencies" = None).
Proof.
  intros Hroot Hne Hcan Hkeyed Hmark Hplain.
  destruct (usePlugins_after_persist σ root Hne Hcan Hkeyed Hmark Hplain)
    as (σ2 & Hload & Hreg).
  eexists _, σ2.
  split; [by apply persistPlugins_ok|].
  split; [apply lookup_insert_eq|].
  split.
  { intros name fields Hin. unfold persistedDoc in Hin. simpl in Hin.
    apply elem_of_map_to_list in Hin. rewrite lookup_fmap in Hin.
    destruct (plugins σ !! name) as [o|]; [|done].
    simpl in Hin. injection Hin as <-.
    rewrite !assoc_map_to_list. fold (persistedFields o).
    rewrite !persistedFields_lookup.
    rewrite !bool_decide_eq_true_2; [done|by right|by left]. }
  split; [exact Hload|].
  split; [rewrite Hreg; apply dom_fmap_L|].
  intros name o Ho. exists (rebuilt o).
  split; [by rewrite Hreg, lookup_fmap, Ho|].
  split; [intros k v; apply rebuilt_field|].
  split; [apply rebuilt_flag; by left|].
  split; [apply rebuilt_flag; by right|].
  apply rebuilt_ephemeral.
Qed.

Lemma persist_load_roundtrip_witness :
  exists σ1 σ2,
    persistPlugins workingState = (Ok tt, σ1) /\
    usePlugins "/app/plugins" σ1 = (Ok tt, σ2) /\
    dom (plugins σ2) = dom (plugins workingState) /\
    exists o', plugins σ2 !! "b" = Some o' /\
      o' !! "source" = Some (VJson (JStr "./plugins/b")) /\
      o' !! "_active" = Some (VJson (JBool true)) /\
      o' !! "_listeners" = Some (VCallbacks [CbPersistPlugins]) /\
      o' !! "dependencies" = None.
Proof.
  destruct (persist_load_roundtrip workingState "/app/plugins") as
    (σ1 & σ2 & Hp & _ & _ & Hl & Hdom & Hrec).
  - reflexivity.
  - discriminate.
  - reflexivity.
  - intros k o Hk. simpl in Hk.
    apply lookup_insert_Some in Hk as [[<- <-]|[_ Hk]]; [reflexivity|].
    by rewrite lookup_empty in Hk.
  - intros k o Hk. simpl in Hk.
    apply lookup_insert_Some in Hk as [[<- <-]|[_ Hk]]; [reflexivity|].
    by rewrite lookup_empty in Hk.
  - intros k o Hk. simpl in Hk.
    apply lookup_insert_Some in Hk as [[<- <-]|[_ Hk]]; [reflexivity|].
    by rewrite lookup_empty in Hk.
  - exists σ1, σ2. split; [exact Hp|]. split; [exact Hl|]. split; [exact Hdom|].
    destruct (Hrec "b" working eq_refl) as (o' & Ho' & Hf & _ & _ & Hls & Hdep).
    exists o'. split; [exact Ho'|].
    split; [by apply Hf|]. split; [by apply Hf|]. split; [exact Hls|exact Hdep].
Defined.

(** C2, counterexample: a record marked for removal is written by the
    persist and is gone after the load. *)
Lemma persist_load_drops_marked :
  let σ := withPlugins (insert "a" doomed) installedState in
  plugins σ !! "a" = Some doomed /\
  ((persistPlugins ;;; usePlugins "/app/plugins") σ).1 = Ok tt /\
  plugins ((persistPlugins ;;; usePlugins "/app/plugins") σ).2 !! "a" = None.
Proof. repeat split. Qed.

(** * Further properties of the store and the loader *)

(** ** Relations that the computations keep *)

Section Keeps.

Context (Q : State -> State -> Prop) `{!Reflexive Q} `{!Transitive Q}.

Lemma keeps_ret {A} (a : A) : keeps Q (ret a).
Proof. intros σ r σ' [= _ <-]. reflexivity. Qed.

Lemma keeps_throw {A} (e : Exn) : keeps Q (@throw A e).
Proof. intros σ r σ' [= _ <-]. reflexivity. Qed.

Lemma keeps_liftRes {A} (x : Res A) : keeps Q (liftRes x).
Proof. intros σ r σ' [= _ <-]. reflexivity. Qed.

Lemma keeps_bind {A B} (m : M A) (k : A -> M B) :
  keeps Q m -> (forall a, keeps Q (k a)) -> keeps Q (bind m k).
Proof.
  intros Hm Hk σ r σ'. unfold bind.
  destruct (m σ) as [[a|e] σ1] eqn:Hrun.
  - intros Hrest. etransitivity; [by eapply Hm|by eapply Hk].
  - intros [= _ <-]. by eapply Hm.
Qed.

Lemma keeps_tryCatch {A} (body : M A) (handler : Exn -> M A) :
  keeps Q body -> (forall e, keeps Q (handler e)) -> keeps Q (tryCatch body handler).
Proof.
  intros Hb Hh σ r σ'. unfold tryCatch.
  destruct (body σ) as [[a|e] σ1] eqn:Hrun.
  - intros [= _ <-]. by eapply Hb.
  - intros Hrest. etransitivity; [by eapply Hb|by eapply Hh].
Qed.

Lemma keeps_forEach {A} (body : A -> M unit) (l : list A) :
  (forall x, keeps Q (body x)) -> keeps Q (forEach body l).
Proof.
  intros Hbody. induction l as [|x l IH]; simpl.
  - apply keeps_ret.
  - apply keeps_bind; [apply Hbody|]. intros _. exact IH.
Qed.

End Keeps.

#[local] Instance sameSettings_refl : Reflexive sameSettings.
Proof. by intros σ. Qed.

#[local] Instance sameSettings_trans : Transitive sameSettings.
Proof.
  intros σ1 σ2 σ3 (?&?&?&?) (?&?&?&?). repeat split; congruence.
Qed.

#[local] Instance sameConfirmer_refl : Reflexive sameConfirmer.
Proof. by intros σ. Qed.

#[local] Instance sameConfirmer_trans : Transitive sameConfirmer.
Proof. unfold sameConfirmer. intros σ1 σ2 σ3 ? ?. congruence. Qed.

#[local] Instance noWrite_refl : Reflexive noWrite.
Proof. by intros σ. Qed.

#[local] Instance noWrite_trans : Transitive noWrite.
Proof. unfold noWrite. intros σ1 σ2 σ3 ? ?. congruence. Qed.

#[local] Instance staysKeyed_refl : Reflexive staysKeyed.
Proof. by intros σ H. Qed.

#[local] Instance staysKeyed_trans : Transitive staysKeyed.
Proof. unfold staysKeyed. intros σ1 σ2 σ3 ? ?. tauto. Qed.

Lemma persistPlugins_settings : keeps sameSettings persistPlugins.
Proof.
  intros σ r σ' H. by apply persistPlugins_frame in H as (fs & -> & _).
Qed.

Lemma persistPlugins_register (σ : State) (r : Res unit) (σ' : State) :
  persistPlugins σ = (r, σ') -> plugins σ' = plugins σ.
Proof. apply persistPlugins_plugins. Qed.

Lemma persistPlugins_keyed : keeps staysKeyed persistPlugins.
Proof. intros σ r σ' H Hk. by rewrite (persistPlugins_register _ _ _ H). Qed.

Lemma addPlugin_settings (plugin : Obj) (persist : bool) :
  keeps sameSettings (addPlugin plugin persist).
Proof.
  unfold addPlugin.
  apply (keeps_bind sameSettings); [by intros σ r σ' [= _ <-]|]. intros _.
  apply (keeps_bind sameSettings).
  - destruct persist; [apply persistPlugins_settings|apply (keeps_ret sameSettings)].
  - intros _. destruct (plugin !! "subscribe"); by intros σ r σ' [= _ <-].
Qed.

Lemma removePlugin_settings (name : string) (persist : bool) :
  keeps sameSettings (removePlugin name persist).
Proof.
  intros σ r σ'. unfold removePlugin, jsDelete. intros H.
  assert (Hk : keeps sameSettings
                 ((if persist then persistPlugins else ret tt) ;;; ret true)).
  { apply (keeps_bind sameSettings); [ |intros _; apply (keeps_ret sameSettings)].
    destruct persist; [apply persistPlugins_settings|apply (keeps_ret sameSettings)]. }
  apply Hk in H. exact H.
Qed.

Lemma loadPlugin_settings (plg : Json) : keeps sameSettings (loadPlugin plg).
Proof.
  unfold loadPlugin.
  apply (keeps_bind sameSettings); [apply (keeps_liftRes sameSettings)|]. intros t.
  destruct (truthyJ t).
  - apply (keeps_bind sameSettings); [apply (keeps_liftRes sameSettings)|]. intros n.
    intros σ r σ'. unfold bind, liftRes.
    destruct (resolve _ _) as [dir|e]; [|by intros [= _ <-]].
    destruct (rmdirSync dir (disk σ)) as [r0 fs]. by intros [= _ <-].
  - apply (keeps_bind sameSettings); [apply addPlugin_settings|].
    intros _. apply (keeps_ret sameSettings).
Qed.

Lemma rmdirSync_writes (dir : string) (fs fs' : FS) (r : Res unit) :
  rmdirSync dir fs = (r, fs') -> writes fs' = writes fs.
Proof. unfold rmdirSync. repeat case_match; by intros [= _ <-]. Qed.

Lemma loadPlugin_noWrite (plg : Json) : keeps noWrite (loadPlugin plg).
Proof.
  unfold loadPlugin.
  apply (keeps_bind noWrite); [apply (keeps_liftRes noWrite)|]. intros t.
  destruct (truthyJ t).
  - apply (keeps_bind noWrite); [apply (keeps_liftRes noWrite)|]. intros n.
    intros σ r σ'. unfold bind, liftRes.
    destruct (resolve _ _) as [dir|e]; [|by intros [= _ <-]].
    destruct (rmdirSync dir (disk σ)) as [r0 fs] eqn:Hrm. intros [= _ <-].
    unfold noWrite. simpl. by eapply rmdirSync_writes.
  - apply (keeps_bind noWrite); [|intros _; apply (keeps_ret noWrite)].
    intros σ r σ'. destruct (reconstruct plg !! "subscribe") as [v|] eqn:Hsub.
    + rewrite (addPlugin_false_shadowed _ v σ Hsub). by intros [= _ <-].
    + rewrite (addPlugin_false _ σ Hsub). by intros [= _ <-].
Qed.

Lemma loadPlugin_keyed (plg : Json) : keeps staysKeyed (loadPlugin plg).
Proof.
  unfold loadPlugin.
  apply (keeps_bind staysKeyed); [apply (keeps_liftRes staysKeyed)|]. intros t.
  destruct (truthyJ t).
  - apply (keeps_bind staysKeyed); [apply (keeps_liftRes staysKeyed)|]. intros n.
    intros σ r σ'. unfold bind, liftRes.
    destruct (resolve _ _) as [dir|e]; [|by intros [= _ <-] ?].
    destruct (rmdirSync dir (disk σ)) as [r0 fs]. by intros [= _ <-] ?.
  - apply (keeps_bind staysKeyed); [|intros _; apply (keeps_ret staysKeyed)].
    intros σ r σ' H Hk. by eapply addPlugin_keyed.
Qed.

Lemma keeps_pure {A} (Q : State -> State -> Prop) `{!Reflexive Q} (m : M A) :
  (forall σ r σ', m σ = (r, σ') -> σ' = σ) -> keeps Q m.
Proof. intros Hm σ r σ' H. apply Hm in H as ->. reflexivity. Qed.

Lemma getPluginsFile_pure (σ : State) (r : Res string) (σ' : State) :
  getPluginsFile σ = (r, σ') -> σ' = σ.
Proof. unfold getPluginsFile. destruct (pluginsPath σ); by intros [= _ <-]. Qed.

Lemma readJson_pure (file : string) (σ : State) (r : Res Json) (σ' : State) :
  readJson file σ = (r, σ') -> σ' = σ.
Proof.
  unfold readJson. destruct (readFileSync file (disk σ)) as [[j|]|e]; by intros [= _ <-].
Qed.

(** [usePlugins] keeps every relation that its steps keep. *)
Lemma usePlugins_keeps (Q : State -> State -> Prop) `{!Reflexive Q} `{!Transitive Q}
    (plgPath : string) :
  keeps Q (setPluginsPath plgPath) ->
  keeps Q clearPlugins ->
  (forall plg, keeps Q (loadPlugin plg)) ->
  keeps Q persistPlugins ->
  keeps Q (usePlugins plgPath).
Proof.
  intros Hset Hclear Hload Hpersist σ r σ'. unfold usePlugins.
  destruct (String.eqb plgPath "" && negb (truthyJ (JStr <$> pluginsPath σ))).
  { intros [= _ <-]. reflexivity. }
  destruct (negb (String.eqb plgPath "")); [|intros [= _ <-]; reflexivity].
  revert σ r σ'. change (keeps Q
    (setPluginsPath plgPath ;;; clearPlugins ;;; file <- getPluginsFile ;;
     fun σ' =>
       if existsSync file (disk σ') then
         (stored <- readJson file ;;
          tryCatch (loadEntries stored ;;; persistPlugins)
                   (fun _ => throw rebuildError)) σ'
       else (Ok tt, σ'))).
  apply (keeps_bind Q); [exact Hset|]. intros _.
  apply (keeps_bind Q); [exact Hclear|]. intros _.
  apply (keeps_bind Q); [apply (keeps_pure Q), getPluginsFile_pure|]. intros file.
  intros σ r σ'. destruct (existsSync file (disk σ)); [|intros [= _ <-]; reflexivity].
  revert σ r σ'. change (keeps Q
    (stored <- readJson file ;;
     tryCatch (loadEntries stored ;;; persistPlugins) (fun _ => throw rebuildError))).
  apply (keeps_bind Q); [apply (keeps_pure Q), readJson_pure|]. intros stored.
  apply (keeps_tryCatch Q); [|intros _; apply (keeps_throw Q)].
  apply (keeps_bind Q); [|intros _; exact Hpersist].
  apply (keeps_forEach Q). intros entry. apply Hload.
Qed.

Lemma setPluginsPath_run (plgPath : string) (σ : State) :
  setPluginsPath plgPath σ
  = (Ok tt, mkState (plugins σ) (confirmInstall σ) (Some plgPath) (cwd σ) (disk σ)
                    (fetchPackage σ)).
Proof. reflexivity. Qed.

Lemma sameSettings_sameConfirmer {A} (m : M A) :
  keeps sameSettings m -> keeps sameConfirmer m.
Proof. intros Hm σ r σ' H. by apply Hm in H as (? & _). Qed.

Lemma usePlugins_sameConfirmer (plgPath : string) : keeps sameConfirmer (usePlugins plgPath).
Proof.
  apply (usePlugins_keeps sameConfirmer).
  - by intros σ r σ' [= _ <-].
  - intros σ r σ'. rewrite clearPlugins_run. by intros [= _ <-].
  - intros plg. apply sameSettings_sameConfirmer, loadPlugin_settings.
  - apply sameSettings_sameConfirmer, persistPlugins_settings.
Qed.

(** ** [usePlugins]: its other outcomes *)

(** X1.  [usePlugins] with the empty path: while no plugins root is set it
    throws "A path to the plugins folder is required to use Pluggable
    Electron"; once a root is set it returns at once.  Either way the state
    is left as it was: nothing is cleared, read or written. *)
Theorem usePlugins_without_path (σ : State) :
  (pluginsPath σ = None \/ pluginsPath σ = Some "" ->
   usePlugins "" σ
   = (Throw (Error "A path to the plugins folder is required to use Pluggable Electron"), σ)) /\
  (forall root, pluginsPath σ = Some root -> root <> "" ->
   usePlugins "" σ = (Ok tt, σ)).
Proof.
  split.
  - intros [H|H]; unfold usePlugins; rewrite H; reflexivity.
  - intros root H Hne. unfold usePlugins. rewrite H. simpl.
    by rewrite (eqb_false_of_ne _ _ Hne).
Qed.

Lemma usePlugins_without_path_witness :
  usePlugins "" (mkState ∅ defaultConfirmInstall None "/home" emptyDisk (fun _ _ => None))
  = (Throw (Error "A path to the plugins folder is required to use Pluggable Electron"),
     mkState ∅ defaultConfirmInstall None "/home" emptyDisk (fun _ _ => None)) /\
  usePlugins "" workingState = (Ok tt, workingState).
Proof.
  split.
  - apply (proj1 (usePlugins_without_path _)). by left.
  - apply (proj2 (usePlugins_without_path workingState) "/app/plugins"); [reflexivity|discriminate].
Defined.

Lemma usePlugins_to_file (plgPath : string) (σ : State) :
  plgPath <> "" ->
  usePlugins plgPath σ
  = (if existsSync (pluginsFileOf plgPath) (disk σ) then
       (stored <- readJson (pluginsFileOf plgPath) ;;
        tryCatch (loadEntries stored ;;; persistPlugins) (fun _ => throw rebuildError))
         (resetState plgPath σ)
     else (Ok tt, resetState plgPath σ)).
Proof.
  intros Hne. unfold usePlugins.
  rewrite (eqb_false_of_ne _ _ Hne). simpl andb. cbv iota. simpl negb. cbv iota.
  unfold bind at 1. unfold setPluginsPath at 1.
  unfold bind at 1. rewrite clearPlugins_run.
  unfold bind at 1. unfold getPluginsFile at 1.
  reflexivity.
Qed.

(** X2.  [usePlugins] with an absolute path under which there is no registry
    file (the file that [path.join] names, in normal form, whatever the
    spelling of the path) sets the root, empties a register keyed by name,
    and is done: nothing is read, deleted or written. *)
Theorem usePlugins_no_file (plgPath : string) (σ : State) :
  startsWithSlash plgPath = true ->
  existsSync (normalize (plgPath +:+ "/plugins.json")) (disk σ) = false ->
  keyedByName (plugins σ) ->
  exists σ', usePlugins plgPath σ = (Ok tt, σ') /\
    pluginsPath σ' = Some plgPath /\
    plugins σ' = ∅ /\
    disk σ' = disk σ.
Proof.
  intros Habs Hfile Hkeyed.
  assert (Hne : plgPath <> "") by (by intros ->).
  assert (Hpath : pluginsFileOf plgPath = normalize (plgPath +:+ "/plugins.json")).
  { unfold pluginsFileOf. by rewrite (eqb_false_of_ne _ _ Hne). }
  exists (resetState plgPath σ).
  rewrite (usePlugins_to_file _ _ Hne), Hpath, Hfile.
  split; [done|]. split; [done|]. split; [|done].
  simpl. by apply cleared_keyed.
Qed.

Lemma usePlugins_no_file_witness :
  exists σ', usePlugins "/srv/plugins" workingState = (Ok tt, σ') /\
    pluginsPath σ' = Some "/srv/plugins" /\
    plugins σ' = ∅ /\
    disk σ' = disk workingState.
Proof.
  apply (usePlugins_no_file "/srv/plugins" workingState).
  - reflexivity.
  - reflexivity.
  - intros k o Hk. simpl in Hk.
    apply lookup_insert_Some in Hk as [[<- <-]|[_ Hk]]; [reflexivity|].
    by rewrite lookup_empty in Hk.
Defined.

(** X3.  When the registry file is not JSON, [usePlugins] throws the
    parser's [SyntaxError] as it is, not the "Could not successfully
    rebuild ..." error: the parse is outside the [try].  By then the root is
    set and a register keyed by name has been emptied; the disk is as it
    was. *)
Theorem usePlugins_unparsable (plgPath : string) (σ : State) :
  plgPath <> "" ->
  files (disk σ) !! pluginsFileOf plgPath = Some Garbage ->
  keyedByName (plugins σ) ->
  exists σ', usePlugins plgPath σ = (Throw SyntaxError, σ') /\
    SyntaxError <> rebuildError /\
    pluginsPath σ' = Some plgPath /\
    plugins σ' = ∅ /\
    disk σ' = disk σ.
Proof.
  intros Hne Hfile Hkeyed. exists (resetState plgPath σ).
  rewrite (usePlugins_to_file _ _ Hne).
  unfold existsSync. rewrite (bool_decide_eq_true_2 (is_Some _)) by (rewrite Hfile; eauto).
  cbn [orb]. unfold bind, readJson, readFileSync.
  cbn [disk resetState]. rewrite Hfile.
  split; [done|]. split; [done|]. split; [done|]. split; [|done].
  simpl. by apply cleared_keyed.
Qed.

Lemma usePlugins_unparsable_witness :
  exists σ',
    usePlugins "/app/plugins"
      (withDisk (mkFS {[ "/app/plugins/plugins.json" := Garbage ]} {[ "/app/plugins" ]} [])
                freshState)
    = (Throw SyntaxError, σ') /\
    SyntaxError <> rebuildError /\
    pluginsPath σ' = Some "/app/plugins" /\
    plugins σ' = ∅ /\
    disk σ' = mkFS {[ "/app/plugins/plugins.json" := Garbage ]} {[ "/app/plugins" ]} [].
Proof.
  apply (usePlugins_unparsable "/app/plugins"
           (withDisk (mkFS {[ "/app/plugins/plugins.json" := Garbage ]}
                           {[ "/app/plugins" ]} []) freshState)).
  - discriminate.
  - reflexivity.
  - apply keyedByName_empty.
Defined.

(** X4.  When every entry of the registry file loads, [usePlugins] hands the
    file to [writeFileSync] once, after the last entry: the entries
    themselves are loaded without a write.  If the file can be written on
    the disk the entries left, [usePlugins] returns and the document written
    is the one of the register that the entries built; if it cannot (an
    entry marked for removal has taken the plugins folder along), the write
    fails inside the [try], [usePlugins] throws the "Could not successfully
    rebuild ..." error and no file is changed.  The register is the one the
    entries built in both cases. *)
Theorem usePlugins_writes_once (plgPath : string) (σ σm : State) (stored : Json) :
  plgPath <> "" ->
  files (disk σ) !! pluginsFileOf plgPath = Some (Doc stored) ->
  loadEntries stored (resetState plgPath σ) = (Ok tt, σm) ->
  exists r σ', usePlugins plgPath σ = (r, σ') /\
    plugins σ' = plugins σm /\
    writes (disk σm) = writes (disk σ) /\
    writes (disk σ') = pluginsFileOf plgPath :: writes (disk σ) /\
    (canWrite (pluginsFileOf plgPath) (disk σm) = true ->
     r = Ok tt /\
     files (disk σ') !! pluginsFileOf plgPath
       = Some (Doc (persistedDoc (plugins σm)))) /\
    (canWrite (pluginsFileOf plgPath) (disk σm) = false ->
     r = Throw rebuildError /\ files (disk σ') = files (disk σm)).
Proof.
  intros Hne Hfile Hload.
  assert (Hw : writes (disk σm) = writes (disk σ)).
  { apply (keeps_forEach noWrite _ _ (fun entry => loadPlugin_noWrite entry.2)) in Hload.
    exact Hload. }
  assert (Hroot : pluginsPath σm = Some plgPath).
  { apply (keeps_forEach sameSettings _ _ (fun entry => loadPlugin_settings entry.2))
      in Hload as (_ & Hp & _). exact Hp. }
  rewrite (usePlugins_unfold plgPath σ stored Hne Hfile).
  unfold tryCatch. erewrite bind_ok; [|exact Hload].
  destruct (canWrite (pluginsFileOf plgPath) (disk σm)) eqn:Hcan.
  - rewrite (persistPlugins_ok σm plgPath Hroot Hcan).
    eexists _, _. split; [reflexivity|]. simpl.
    split; [done|]. split; [done|]. split; [by rewrite Hw|].
    split; [|done]. intros _. split; [done|]. apply lookup_insert_eq.
  - destruct (persistPlugins_refused σm plgPath Hroot Hcan) as [code ->].
    eexists _, _. split; [reflexivity|]. simpl.
    split; [done|]. split; [done|]. split; [by rewrite Hw|].
    split; [done|]. by intros _.
Qed.

Lemma usePlugins_writes_once_witness :
  exists σ', usePlugins "/app/plugins" storedState = (Ok tt, σ') /\
    writes (disk σ') = ["/app/plugins/plugins.json"] /\
    files (disk σ') !! "/app/plugins/plugins.json"
      = Some (Doc (persistedDoc (plugins σ'))).
Proof.
  destruct (usePlugins_writes_once "/app/plugins" storedState
              (loadEntries storedDoc (resetState "/app/plugins" storedState)).2 storedDoc)
    as (r & σ' & Hrun & Hreg & _ & Hw & Hok & _).
  - discriminate.
  - reflexivity.
  - reflexivity.
  - destruct Hok as [-> Hf]; [reflexivity|].
    exists σ'. split; [exact Hrun|]. split; [exact Hw|]. by rewrite Hreg.
Defined.

Lemma clearPlugins_keyed : keeps staysKeyed clearPlugins.
Proof.
  intros σ r σ'. rewrite clearPlugins_run. intros [= _ <-] Hk. simpl.
  rewrite (cleared_keyed _ Hk). apply keyedByName_empty.
Qed.

(** X5.  Keying by name is an invariant of the register: [addPlugin],
    [removePlugin], [persistPlugins], [loadPlugin] and [usePlugins] each
    leave a register keyed by name keyed by name, whether they return or
    throw. *)
Theorem register_stays_keyed (σ : State) :
  keyedByName (plugins σ) ->
  (forall plugin persist r σ',
      addPlugin plugin persist σ = (r, σ') -> keyedByName (plugins σ')) /\
  (forall name persist r σ',
      removePlugin name persist σ = (r, σ') -> keyedByName (plugins σ')) /\
  (forall r σ', persistPlugins σ = (r, σ') -> keyedByName (plugins σ')) /\
  (forall plg r σ', loadPlugin plg σ = (r, σ') -> keyedByName (plugins σ')) /\
  (forall plgPath r σ', usePlugins plgPath σ = (r, σ') -> keyedByName (plugins σ')).
Proof.
  intros Hk. repeat split.
  - intros plugin persist r σ' H. by eapply addPlugin_keyed.
  - intros name persist r σ' H. by eapply removePlugin_keyed.
  - intros r σ' H. by eapply persistPlugins_keyed.
  - intros plg r σ' H. by eapply loadPlugin_keyed.
  - intros plgPath r σ' H. revert Hk.
    eapply (usePlugins_keeps staysKeyed plgPath); [| | | |exact H].
    + by intros σ0 r0 σ0' [= _ <-] ?.
    + apply clearPlugins_keyed.
    + apply loadPlugin_keyed.
    + apply persistPlugins_keyed.
Qed.

Lemma register_stays_keyed_witness :
  keyedByName (plugins (usePlugins "/app/plugins" storedState).2) /\
  keyedByName (plugins (addPlugin newer true storedState).2).
Proof.
  destruct (register_stays_keyed storedState keyedByName_empty)
    as (Hadd & _ & _ & _ & Huse).
  split.
  - apply (Huse "/app/plugins" (usePlugins "/app/plugins" storedState).1).
    by destruct (usePlugins "/app/plugins" storedState).
  - apply (Hadd newer true (addPlugin newer true storedState).1).
    by destruct (addPlugin newer true storedState).
Defined.

(** ** [init] *)

(** X6.  [init] and the [use] switch of the facade.  When the facade has a
    [use] property that is falsy, the router is not run and the confirmer is
    not stored: [init] is the load of the path alone, and the confirmer at
    the end is the one at the start.  Otherwise the facade's
    [confirmInstall] is stored first, and the router and the load run with
    it in place. *)
Theorem init_use_switch (router : M unit) (facade : Facade) (plgPath : option string)
    (σ : State) :
  let load : M unit :=
    match plgPath with
    | Some p => if negb (String.eqb p "") then usePlugins p else ret tt
    | None => ret tt
    end in
  (forall use, facadeUse facade = Some use -> truthyJ (Some use) = false ->
     init router facade plgPath σ = load σ /\
     confirmInstall (init router facade plgPath σ).2 = confirmInstall σ) /\
  ((facadeUse facade = None \/
    exists use, facadeUse facade = Some use /\ truthyJ (Some use) = true) ->
     init router facade plgPath σ
     = (router ;;; load)
         (mkState (plugins σ) (facadeConfirmInstall facade) (pluginsPath σ) (cwd σ)
                  (disk σ) (fetchPackage σ))).
Proof.
  intros load. split.
  - intros use Huse Hfalsy.
    assert (Hinit : init router facade plgPath σ = load σ).
    { unfold init. rewrite Huse, Hfalsy. reflexivity. }
    split; [exact Hinit|]. rewrite Hinit.
    destruct (load σ) as [r σ'] eqn:Hrun. simpl.
    unfold load in Hrun. destruct plgPath as [p|].
    + destruct (negb (String.eqb p "")).
      * by apply usePlugins_sameConfirmer in Hrun.
      * by injection Hrun as _ <-.
    + by injection Hrun as _ <-.
  - intros Hon. unfold init.
    assert (Hc : match facadeUse facade with
                 | Some use => truthyJ (Some use)
                 | None => true
                 end = true).
    { destruct Hon as [->|(use & -> & Ht)]; done. }
    rewrite Hc. reflexivity.
Qed.

Lemma init_use_switch_witness :
  init (ret tt) silentFacade (Some "/app/plugins") storedState
    = usePlugins "/app/plugins" storedState /\
  confirmInstall (init (ret tt) silentFacade (Some "/app/plugins") storedState).2
    = defaultConfirmInstall /\
  confirmInstall (init (ret tt) plainFacade None storedState).2
    = facadeConfirmInstall plainFacade.
Proof.
  destruct (init_use_switch (ret tt) silentFacade (Some "/app/plugins") storedState)
    as [Hoff _].
  destruct (Hoff (JBool false) eq_refl eq_refl) as [H1 H2].
  split; [exact H1|]. split; [exact H2|].
  destruct (init_use_switch (ret tt) plainFacade None storedState) as [_ Hon].
  rewrite Hon by (by left). reflexivity.
Defined.

(** ** The store: how its operations compose *)



(** X8.  Adding a plugin (one without a [subscribe] property of its own)
    under a name that is free and removing that name again gives back the
    register as it was; when neither call persists, the whole state is as
    it was.  (A call that persists needs a registry file that can be
    written.) *)
Theorem addPlugin_then_removePlugin (plugin : Obj) (persistAdd persistRemove : bool)
    (σ : State) :
  let name := toKey (plugin !! "name") in
  plugins σ !! name = None ->
  plugin !! "subscribe" = None ->
  (persistAdd = true \/ persistRemove = true -> writable σ) ->
  exists σ',
    (addPlugin plugin persistAdd ;;; removePlugin name persistRemove) σ = (Ok true, σ') /\
    plugins σ' = plugins σ /\
    (persistAdd = false -> persistRemove = false -> σ' = σ).
Proof.
  intros name Hfree Hsub Hroot.
  destruct (addPlugin_run plugin persistAdd σ Hsub)
    as (σ1 & Hadd & Hreg & Hpath & _ & Hdisk).
  { intros ->. apply Hroot. by left. }
  assert (Hdel : delete name (plugins σ1) = plugins σ).
  { rewrite Hreg. fold name. rewrite delete_insert_eq. by apply delete_id. }
  destruct persistRemove.
  - destruct Hroot as (root & Hroot & Hcan); [by right|].
    eexists. split.
    + erewrite bind_ok; [|exact Hadd]. unfold removePlugin, jsDelete.
      erewrite bind_ok; [reflexivity|].
      apply (persistPlugins_ok _ root); simpl; [congruence|].
      rewrite Hdisk, Hroot. by destruct persistAdd.
    + simpl. split; [exact Hdel|discriminate].
  - eexists. split.
    + erewrite bind_ok; [|exact Hadd]. reflexivity.
    + simpl. split; [exact Hdel|].
      intros -> _. rewrite (addPlugin_false _ _ Hsub) in Hadd. injection Hadd as <-.
      destruct σ as [reg cf pp cw dk fp]. unfold withPlugins. simpl in *.
      f_equal. fold name. rewrite delete_insert_eq. by apply delete_id.
Qed.

Lemma addPlugin_then_removePlugin_witness :
  exists σ',
    (addPlugin working false ;;; removePlugin "b" false) freshState = (Ok true, σ') /\
    plugins σ' = plugins freshState /\
    (false = false -> false = false -> σ' = freshState).
Proof.
  apply (addPlugin_then_removePlugin working false false freshState).
  - reflexivity.
  - reflexivity.
  - intros [?|?]; discriminate.
Defined.

(** X9.  After [removePlugin(name)], [getPlugin(name)] throws "Plugin <name>
    does not exist", whether or not the name was registered before and
    whether [removePlugin] returned or threw; it returns [true] when
    [persist] is off or the registry file can be written. *)
Theorem removePlugin_then_getPlugin (name : string) (persist : bool) (σ : State) :
  exists r σ',
    removePlugin name persist σ = (r, σ') /\
    getPlugin name σ' = (Throw (Error ("Plugin " +:+ name +:+ " does not exist")), σ') /\
    ((persist = true -> writable σ) -> r = Ok true).
Proof.
  destruct (removePlugin name persist σ) as [r σ'] eqn:Hrun.
  exists r, σ'. split; [done|]. split.
  - unfold getPlugin. rewrite (removePlugin_register _ _ _ _ _ Hrun).
    by rewrite lookup_delete_eq.
  - intros Hw. revert Hrun. unfold removePlugin, jsDelete. destruct persist.
    + destruct Hw as (root & Hroot & Hcan); [done|].
      erewrite bind_ok; [|by apply (persistPlugins_ok _ root)].
      by intros [= <- _].
    + by intros [= <- _].
Qed.

Lemma removePlugin_then_getPlugin_witness :
  exists σ',
    removePlugin "b" true workingState = (Ok true, σ') /\
    getPlugin "b" σ' = (Throw (Error "Plugin b does not exist"), σ').
Proof.
  destruct (removePlugin_then_getPlugin "b" true workingState)
    as (r & σ' & Hrun & Hget & Hok).
  rewrite Hok in Hrun.
  - exists σ'. split; [exact Hrun|exact Hget].
  - intros _. exists "/app/plugins". split; reflexivity.
Defined.

(** X10.  What [persistPlugins] writes.  With the plugins root set and a
    registry file that can be written (its folder is there), the file is
    replaced by an object that has one entry per registered
    key and no other; the entry of a record has no [_listeners] and no
    [dependencies], and every other property of the record, as JSON.  The
    register itself, the other files and the folders are left alone. *)
Theorem persistPlugins_document (σ : State) (root : string) :
  pluginsPath σ = Some root ->
  canWrite (pluginsFileOf root) (disk σ) = true ->
  exists σ' entries,
    persistPlugins σ = (Ok tt, σ') /\
    plugins σ' = plugins σ /\
    files (disk σ') !! pluginsFileOf root = Some (Doc (JObj entries)) /\
    NoDup entries.*1 /\
    (forall name, plugins σ !! name = None -> assoc name entries = None) /\
    (forall name o, plugins σ !! name = Some o ->
       exists fields, assoc name entries = Some (JObj fields) /\
         NoDup fields.*1 /\
         assoc "_listeners" fields = None /\
         assoc "dependencies" fields = None /\
         (forall k, k <> "_listeners" -> k <> "dependencies" ->
            assoc k fields = toJson <$> o !! k)) /\
    (forall p, p <> pluginsFileOf root -> files (disk σ') !! p = files (disk σ) !! p) /\
    folders (disk σ') = folders (disk σ).
Proof.
  intros Hroot Hcan.
  eexists _, (map_to_list (persistEntry <$> plugins σ)).
  split; [by apply persistPlugins_ok|]. simpl.
  split; [done|]. split; [apply lookup_insert_eq|].
  split; [apply NoDup_fst_map_to_list|].
  split; [intros name Hn; by rewrite assoc_map_to_list, lookup_fmap, Hn|].
  split; [|split; [|done]].
  - intros name o Ho. exists (map_to_list (persistedFields o)).
    split; [by rewrite assoc_map_to_list, lookup_fmap, Ho|].
    split; [apply NoDup_fst_map_to_list|].
    rewrite !assoc_map_to_list, !persistedFields_lookup.
    split; [by rewrite (bool_decide_eq_true_2 (_ \/ _)) by (by left)|].
    split; [by rewrite (bool_decide_eq_true_2 (_ \/ _)) by (by right)|].
    intros k H1 H2. rewrite assoc_map_to_list, persistedFields_lookup.
    by rewrite bool_decide_eq_false_2 by tauto.
  - intros p Hp. by apply lookup_insert_ne.
Qed.

Lemma persistPlugins_document_witness :
  exists σ' entries,
    persistPlugins workingState = (Ok tt, σ') /\
    files (disk σ') !! "/app/plugins/plugins.json" = Some (Doc (JObj entries)) /\
    exists fields, assoc "b" entries = Some (JObj fields) /\
      assoc "_listeners" fields = None /\
      assoc "dependencies" fields = None /\
      assoc "source" fields = Some (JStr "./plugins/b").
Proof.
  destruct (persistPlugins_document workingState "/app/plugins" eq_refl eq_refl)
    as (σ' & entries & Hrun & _ & Hfile & _ & _ & Hrec & _).
  exists σ', entries. split; [exact Hrun|]. split; [exact Hfile|].
  destruct (Hrec "b" working eq_refl) as (fields & Hb & _ & Hl & Hd & Hk).
  exists fields. split; [exact Hb|]. split; [exact Hl|]. split; [exact Hd|].
  by rewrite Hk.
Defined.

(** X11.  [installPlugin] after a successful [_install], whatever
    [_install] does to succeed.  With [store], when the installed plugin has
    no [subscribe] property of its own and the registry file can be
    written, the plugin is registered under its name, the registry file is
    written once, and the record returned is the registered one; without
    [store], the installed plugin is returned and neither the register nor
    the disk is touched after [_install]. *)
Theorem installPlugin_stores (install : Obj -> M Obj) (spec : string) (options : Json)
    (σ σ1 : State) (installed : Obj) :
  install (newPlugin (Some (spec, options))) σ = (Ok installed, σ1) ->
  (forall root, pluginsPath σ1 = Some root ->
     canWrite (pluginsFileOf root) (disk σ1) = true ->
     installed !! "subscribe" = None ->
     exists σ2,
       installPluginWith install spec options true σ
         = (Ok (subscribe CbPersistPlugins installed), σ2) /\
       plugins σ2
         = <[toKey (installed !! "name") := subscribe CbPersistPlugins installed]>
             (plugins σ1) /\
       writes (disk σ2) = pluginsFileOf root :: writes (disk σ1) /\
       files (disk σ2) !! pluginsFileOf root
         = Some (Doc (persistedDoc (<[toKey (installed !! "name") := installed]>
                                      (plugins σ1))))) /\
  installPluginWith install spec options false σ = (Ok installed, σ1).
Proof.
  intros Hinst. split.
  - intros root Hroot Hcan Hsub.
    destruct (addPlugin_run installed true σ1 Hsub)
      as (σ2 & Hadd & Hreg & _ & _ & Hdisk).
    { intros _. by exists root. }
    exists σ2. split; [|split; [exact Hreg|]].
    + unfold installPluginWith. erewrite bind_ok; [|exact Hinst]. exact Hadd.
    + rewrite Hdisk, Hroot. split; [reflexivity|]. apply lookup_insert_eq.
  - unfold installPluginWith. erewrite bind_ok; [|exact Hinst]. reflexivity.
Qed.

Lemma installPlugin_stores_witness :
  (exists σ2,
     installPlugin "foo" (JObj []) true acceptingState
       = (Ok (subscribe CbPersistPlugins fooInstalled), σ2) /\
     plugins σ2 !! "foo" = Some (subscribe CbPersistPlugins fooInstalled) /\
     writes (disk σ2) = ["/app/plugins/plugins.json"]) /\
  installPlugin "foo" (JObj []) false acceptingState = (Ok fooInstalled, acceptingState).
Proof.
  destruct (installPlugin_stores _install "foo" (JObj []) acceptingState acceptingState
              fooInstalled eq_refl) as [Hstore Hplain].
  split; [|exact Hplain].
  destruct (Hstore "/app/plugins" eq_refl eq_refl eq_refl) as (σ2 & Hrun & Hreg & Hw & _).
  exists σ2. split; [exact Hrun|]. split; [|exact Hw].
  rewrite Hreg. apply lookup_insert_eq.
Defined.

(** ** The asset protocol: requests without parent segments *)

Lemma prefix_append (a b : string) : String.prefix a (a +:+ b) = true.
Proof.
  induction a as [|c a IH]; [by destruct b|].
  rewrite append_cons. simpl. by destruct (ascii_dec c c).
Qed.

Lemma prefix_append_same (a x y : string) :
  String.prefix (a +:+ x) (a +:+ y) = String.prefix x y.
Proof.
  induction a as [|c a IH]; [done|].
  rewrite !append_cons. simpl. by destruct (ascii_dec c c).
Qed.

Lemma substr_append (a b : string) : substr (String.length a) (a +:+ b) = b.
Proof. induction a as [|c a IH]; [by destruct b|]. by rewrite append_cons. Qed.

Lemma endsWithSlash_cons (c : Ascii.ascii) (s : string) :
  s <> "" -> endsWithSlash (String c s) = endsWithSlash s.
Proof. by destruct s. Qed.

Lemma endsWithSlash_append (a b : string) :
  b <> "" -> endsWithSlash (a +:+ b) = endsWithSlash b.
Proof.
  intros Hb. induction a as [|c a IH]; [done|].
  rewrite append_cons, endsWithSlash_cons; [done|].
  destruct a; [done|by rewrite append_cons].
Qed.

Lemma endsWithSlash_noSlash (s : string) : hasSlash s = false -> endsWithSlash s = false.
Proof.
  induction s as [|c s IH]; [done|]. simpl hasSlash.
  intros [Hc Hs]%orb_false_elim. destruct s; [done|].
  rewrite endsWithSlash_cons by done. by apply IH.
Qed.

Lemma join_proper_nonempty (segs : list string) :
  Forall properSegment segs -> segs <> [] -> join "/" segs <> "".
Proof.
  intros Hs Hne. destruct Hs as [|x l (_ & Hx & _) _]; [done|].
  destruct x as [|c x]; [done|]. destruct l; [done|].
  rewrite join_cons2, append_cons. done.
Qed.

Lemma endsWithSlash_join (segs : list string) :
  Forall properSegment segs -> segs <> [] -> endsWithSlash (join "/" segs) = false.
Proof.
  induction 1 as [|x l Hx Hl IH]; [done|]. intros _.
  destruct l as [|y l].
  - apply endsWithSlash_noSlash, Hx.
  - rewrite join_cons2, !endsWithSlash_append.
    + by apply IH.
    + by apply join_proper_nonempty.
    + change ("/" +:+ join "/" (y :: l)) with (String slash (join "/" (y :: l))). done.
Qed.

Lemma endsWithSlash_absolute (segs : list string) :
  Forall properSegment segs -> segs <> [] ->
  endsWithSlash ("/" +:+ join "/" segs) = false.
Proof.
  intros Hs Hne. rewrite endsWithSlash_append by (by apply join_proper_nonempty).
  by apply endsWithSlash_join.
Qed.

(** A path below a directory, given with a separator in between. *)
Lemma under_below (dir rest : string) :
  endsWithSlash dir = false -> under dir (dir +:+ "/" +:+ rest) = true.
Proof.
  intros Hdir. unfold under. rewrite Hdir.
  rewrite prefix_append_same, (prefix_append "/"). apply orb_true_r.
Qed.

(** An absolute path made of plain segments is its own normal form. *)
Lemma normalize_proper (segs : list string) :
  Forall properSegment segs -> segs <> [] ->
  normalize ("/" +:+ join "/" segs) = "/" +:+ join "/" segs.
Proof.
  intros Hs Hne. unfold normalize.
  change (String.eqb ("/" +:+ join "/" segs) "") with false. cbv iota.
  change (startsWithSlash ("/" +:+ join "/" segs)) with true. cbv iota.
  change (negb true) with false.
  assert (Hbody : normalizeString ("/" +:+ join "/" segs) false = join "/" segs).
  { unfold normalizeString.
    change (split_on slash ("/" +:+ join "/" segs))
      with ("" :: split_on slash (join "/" segs)).
    rewrite split_on_join; [|eapply Forall_impl; [exact Hs|by intros ? [? _]]|done].
    unfold normSegments. simpl foldl.
    change (normStep false [] "") with (@nil string).
    rewrite foldl_normStep_proper by done.
    by rewrite app_nil_r, rev_involutive. }
  rewrite Hbody.
  rewrite (eqb_false_of_ne _ _ (join_proper_nonempty segs Hs Hne)).
  rewrite endsWithSlash_append by (by apply join_proper_nonempty).
  rewrite endsWithSlash_join by done.
  by rewrite append_nil_r.
Qed.

(** X12.  A request of the form [plugin://] followed by plain path segments
    (no empty, "." or ".." segment) is answered with the file of that
    relative path under the plugins root, for a root that is absolute and
    in normal form.  The eight characters that [substr(8)] drops leave the
    last slash of the scheme in place, which is what separates the root from
    the path. *)
Theorem registerPluginProtocol_serves_under_root (σ : State) (scheme : string)
    (rootSegs segs : list string) :
  let root := "/" +:+ join "/" rootSegs in
  pluginsPath σ = Some root ->
  Forall properSegment rootSegs -> rootSegs <> [] ->
  Forall properSegment segs -> segs <> [] ->
  String.length scheme = 8%nat ->
  registerPluginProtocol (scheme +:+ "/" +:+ join "/" segs) σ
    = (Ok (mkResponse (root +:+ "/" +:+ join "/" segs)), σ) /\
  under root (root +:+ "/" +:+ join "/" segs) = true.
Proof.
  intros root Hroot Hrs Hrne Hs Hne Hlen. split.
  - unfold registerPluginProtocol. rewrite Hroot.
    rewrite <- Hlen, substr_append.
    unfold root. rewrite append_assoc.
    rewrite <- join_app by done.
    rewrite normalize_proper; [done| |].
    + by apply Forall_app.
    + by destruct rootSegs.
  - apply under_below. by apply endsWithSlash_absolute.
Qed.

Lemma registerPluginProtocol_serves_under_root_witness :
  registerPluginProtocol "plugin://foo/index.js" freshState
    = (Ok (mkResponse "/app/plugins/foo/index.js"), freshState) /\
  under "/app/plugins" "/app/plugins/foo/index.js" = true.
Proof.
  apply (registerPluginProtocol_serves_under_root freshState "plugin:/"
           ["app"; "plugins"] ["foo"; "index.js"]).
  - reflexivity.
  - repeat constructor; done.
  - done.
  - repeat constructor; done.
  - done.
  - reflexivity.
Defined.

(** ** [loadPlugin]: failures and the folder it removes *)

Lemma withDisk_same (σ : State) : withDisk (disk σ) σ = σ.
Proof. by destruct σ. Qed.

Lemma rmdirSync_throw (dir : string) (fs fs' : FS) (e : Exn) :
  rmdirSync dir fs = (Throw e, fs') -> fs' = fs.
Proof. unfold rmdirSync. repeat case_match; by intros [= ]. Qed.

(** X13.  [loadPlugin] when it throws.  The state is exactly the one it
    started in, no record added and nothing deleted, with one exception: an
    entry that is not marked for removal and has a [subscribe] field.  Its
    record is put in the register before the call of [subscribe] fails, and
    stays there without listener; the rest of the state is as it was.  In no
    case does [loadPlugin] write the registry file or change the root or the
    confirmer.  An entry that is [null] makes it throw a [TypeError]. *)
Theorem loadPlugin_throw_unchanged (σ : State) :
  (forall plg e σ', loadPlugin plg σ = (Throw e, σ') ->
     (σ' = σ \/
      (e = TypeError "plugin.subscribe is not a function" /\
       σ' = withPlugins (insert (toKey (reconstruct plg !! "name")) (reconstruct plg)) σ)) /\
     (reconstruct plg !! "subscribe" = None -> σ' = σ)) /\
  (forall plg r σ', loadPlugin plg σ = (r, σ') ->
     writes (disk σ') = writes (disk σ) /\ sameSettings σ σ') /\
  loadPlugin JNull σ = (Throw (TypeError "Cannot read properties of null"), σ).
Proof.
  split; [|split; [|reflexivity]].
  - intros plg e σ'. unfold loadPlugin, bind, liftRes.
    destruct (getProp plg "_toUninstall") as [t|e1]; [|by intros [= _ <-]; auto].
    destruct (truthyJ t).
    + destruct (getProp plg "name") as [n|e2]; [|by intros [= _ <-]; auto].
      destruct (resolve _ _) as [dir|e3]; [|by intros [= _ <-]; auto].
      destruct (rmdirSync dir (disk σ)) as [[[]|e4] fs] eqn:Hrm; [by intros [= ]|].
      intros [= _ <-]. apply rmdirSync_throw in Hrm as ->.
      rewrite withDisk_same. auto.
    + destruct (reconstruct plg !! "subscribe") as [v|] eqn:Hsub.
      * rewrite (addPlugin_false_shadowed _ v σ Hsub). intros [= <- <-].
        split; [by right|done].
      * rewrite (addPlugin_false _ σ Hsub). by intros [= ].
  - intros plg r σ' H. split.
    + by apply loadPlugin_noWrite in H.
    + by apply loadPlugin_settings in H.
Qed.

(** X14.  An entry marked for removal whose [name] is missing or is not a
    string makes [loadPlugin] throw the [TypeError] of [path.resolve]; no
    folder is removed and the state is as it was. *)
Theorem loadPlugin_marked_without_name (entries : list (string * Json)) (σ : State) :
  truthyJ (assoc "_toUninstall" entries) = true ->
  asString (assoc "name" entries) = None ->
  loadPlugin (JObj entries) σ
  = (Throw (TypeError "The path argument must be of type string"), σ).
Proof.
  intros Hmark Hname. unfold loadPlugin, bind, liftRes. simpl getProp. cbv iota beta.
  rewrite Hmark. cbv iota beta. simpl getProp. cbv iota beta.
  rewrite Hname. unfold resolve. simpl. reflexivity.
Qed.

Lemma loadPlugin_marked_without_name_witness :
  loadPlugin (JObj [("_toUninstall", JBool true)]) installedState
  = (Throw (TypeError "The path argument must be of type string"), installedState).
Proof.
  apply (loadPlugin_marked_without_name [("_toUninstall", JBool true)] installedState);
    reflexivity.
Defined.

(** [path.resolve] stops at an absolute argument: what comes before it, the
    plugins root here, plays no part. *)
Lemma resolve_absolute (cwd : string) (root : option string) (segs : list string) :
  Forall properSegment segs -> segs <> [] ->
  resolve cwd [root; Some ("/" +:+ join "/" segs)] = Ok ("/" +:+ join "/" segs).
Proof.
  intros Hs Hne. unfold resolve. simpl rev. simpl resolveScan.
  change (String.eqb ("/" +:+ join "/" segs) "") with false. cbv iota.
  change (startsWithSlash ("/" +:+ join "/" segs)) with true. cbv iota.
  f_equal. f_equal. unfold normalizeString.
  change (("/" +:+ join "/" segs) +:+ "/" +:+ "")
    with (String slash (join "/" segs +:+ String slash "")).
  change (split_on slash (String slash ?t)) with ("" :: split_on slash t).
  rewrite split_on_app_slash, split_on_join;
    [|eapply Forall_impl; [exact Hs|by intros ? [? _]]|done].
  unfold normSegments. simpl foldl.
  change (normStep false [] "") with (@nil string).
  rewrite foldl_app, (foldl_normStep_proper false segs []) by done.
  simpl. rewrite app_nil_r.
  destruct (rev segs) as [|top below] eqn:Hrev.
  - apply (f_equal (@rev string)) in Hrev. rewrite rev_involutive in Hrev. done.
  - assert (Htop : properSegment top).
    { eapply (Forall_forall properSegment (rev segs)); [by apply List.Forall_rev|].
      rewrite Hrev. apply list_elem_of_In. by left. }
    assert (Hskip : normStep false (top :: below) "" = top :: below) by reflexivity.
    rewrite Hskip, <- Hrev. by rewrite rev_involutive.
Qed.

(** X15.  The folder that [loadPlugin] removes for a marked entry is not
    confined to the plugins root: when the [name] of the entry is an
    absolute path of plain segments, that very folder is removed with what
    is below it, whatever the plugins root is, set or not. *)
Theorem loadPlugin_absolute_name (entries : list (string * Json)) (σ : State)
    (segs : list string) :
  let dir := "/" +:+ join "/" segs in
  truthyJ (assoc "_toUninstall" entries) = true ->
  assoc "name" entries = Some (JStr dir) ->
  Forall properSegment segs -> segs <> [] ->
  dir ∈ folders (disk σ) ->
  exists σ', loadPlugin (JObj entries) σ = (Ok tt, σ') /\
    plugins σ' = plugins σ /\
    (forall p, under dir p = true ->
       files (disk σ') !! p = None /\ p ∉ folders (disk σ')).
Proof.
  intros dir Hmark Hname Hs Hne Hdir.
  destruct (rmdirSync_folder dir (disk σ) Hdir) as (fs' & Hrm & _ & Hgone & _).
  exists (withDisk fs' σ). split; [|split; [done|exact Hgone]].
  unfold loadPlugin, bind, liftRes. simpl getProp. cbv iota beta.
  rewrite Hmark. cbv iota beta. simpl getProp. cbv iota beta.
  rewrite Hname. simpl asString. unfold dir.
  rewrite resolve_absolute by done. fold dir. by rewrite Hrm.
Qed.

Lemma loadPlugin_absolute_name_witness :
  exists σ',
    loadPlugin (JObj [("name", JStr "/app/plugins"); ("_toUninstall", JBool true)])
               installedState = (Ok tt, σ') /\
    plugins σ' = plugins installedState /\
    "/app/plugins/a" ∉ folders (disk σ').
Proof.
  destruct (loadPlugin_absolute_name
              [("name", JStr "/app/plugins"); ("_toUninstall", JBool true)]
              installedState ["app"; "plugins"]) as (σ' & Hrun & Hreg & Hgone).
  - reflexivity.
  - reflexivity.
  - repeat constructor; done.
  - done.
  - apply elem_of_union_l, elem_of_singleton. reflexivity.
  - exists σ'. split; [exact Hrun|]. split; [exact Hreg|].
    apply (Hgone "/app/plugins/a"). reflexivity.
Defined.

(** ** Persist and load, again *)

Lemma persist_then_load (σ : State) (root : string) :
  pluginsPath σ = Some root ->
  root <> "" ->
  canWrite (pluginsFileOf root) (disk σ) = true ->
  keyedByName (plugins σ) ->
  (forall k o, plugins σ !! k = Some o -> truthy (o !! "_toUninstall") = false) ->
  (forall k o, plugins σ !! k = Some o -> o !! "subscribe" = None) ->
  (persistPlugins ;;; usePlugins root) σ = (Ok tt, reloaded root σ).
Proof.
  intros Hroot Hne Hcan Hkeyed Hmark Hplain.
  erewrite bind_ok; [|by apply persistPlugins_ok].
  rewrite (usePlugins_unfold root _ (persistedDoc (plugins σ)) Hne)
    by apply lookup_insert_eq.
  unfold tryCatch.
  erewrite bind_ok; cycle 1.
  { unfold loadEntries, persistedDoc. simpl forIn.
    apply (loadLoop_run (plugins σ)); [|done|done|done].
    apply Forall_forall. intros [k e] Hin.
    apply elem_of_map_to_list in Hin. rewrite lookup_fmap in Hin.
    destruct (plugins σ !! k) as [o|] eqn:Ho; [|done].
    exists o. simpl in *. split; congruence. }
  rewrite (persistPlugins_ok _ root) by done.
  unfold reloaded, withDisk, withPlugins, resetState. simpl.
  rewrite (cleared_keyed _ Hkeyed), loaded_register. reflexivity.
Qed.

Lemma rebuilt_subscribe (o : Obj) :
  o !! "subscribe" = None -> rebuilt o !! "subscribe" = None.
Proof.
  intros Hsub. unfold rebuilt. rewrite subscribe_lookup_ne by done.
  by apply reconstruct_persistEntry_subscribe.
Qed.

Lemma rebuilt_keyed (reg : gmap string Obj) :
  keyedByName reg -> keyedByName (rebuilt <$> reg).
Proof.
  intros Hkeyed k o' Hk. rewrite lookup_fmap in Hk.
  destruct (reg !! k) as [o|] eqn:Ho; [|done].
  injection Hk as <-. rewrite rebuilt_name. by apply Hkeyed.
Qed.

(** X16.  Activation survives a restart.  For a register keyed by name with
    no record marked for removal or carrying a [subscribe] field of its own,
    and a registry file that can be written, after [persistPlugins] and a
    load from the same root the names of the plugins that [getActivePlugins] lists are the
    names that were registered with a truthy [_active]. *)
Theorem activation_survives_reload (σ : State) (root : string) :
  pluginsPath σ = Some root ->
  root <> "" ->
  canWrite (pluginsFileOf root) (disk σ) = true ->
  keyedByName (plugins σ) ->
  (forall k o, plugins σ !! k = Some o -> truthy (o !! "_toUninstall") = false) ->
  (forall k o, plugins σ !! k = Some o -> o !! "subscribe" = None) ->
  exists σ2 active,
    (persistPlugins ;;; usePlugins root) σ = (Ok tt, σ2) /\
    getActivePlugins σ2 = (Ok active, σ2) /\
    (forall name,
        (exists o' : Obj, o' ∈ active /\ toKey (o' !! "name") = name) <->
        (exists o, plugins σ !! name = Some o /\ truthy (o !! "_active") = true)).
Proof.
  intros Hroot Hne Hcan Hkeyed Hmark Hplain.
  exists (reloaded root σ). eexists.
  split; [by apply persist_then_load|]. split; [reflexivity|].
  intros name. split.
  - intros (o' & Hin & Hname).
    rewrite list_elem_of_In, filter_In, <- list_elem_of_In in Hin.
    destruct Hin as [Hin Hact]. apply elem_of_objectValues in Hin as [k Hk].
    simpl in Hk. rewrite lookup_fmap in Hk.
    destruct (plugins σ !! k) as [o|] eqn:Ho; [|done].
    injection Hk as <-. exists o.
    rewrite rebuilt_name in Hname. rewrite (Hkeyed _ _ Ho) in Hname. subst k.
    split; [done|]. rewrite <- (rebuilt_flag o "_active") by (by left). exact Hact.
  - intros (o & Ho & Hact). exists (rebuilt o). split.
    + rewrite list_elem_of_In, filter_In, <- list_elem_of_In. split.
      * apply elem_of_objectValues. exists name. simpl.
        by rewrite lookup_fmap, Ho.
      * rewrite (rebuilt_flag o "_active") by (by left). exact Hact.
    + rewrite rebuilt_name. by apply Hkeyed.
Qed.

Lemma workingState_keyed : keyedByName (plugins workingState).
Proof.
  intros k o Hk. simpl in Hk.
  apply lookup_insert_Some in Hk as [[<- <-]|[_ Hk]]; [reflexivity|].
  by rewrite lookup_empty in Hk.
Qed.

Lemma workingState_unmarked (k : string) (o : Obj) :
  plugins workingState !! k = Some o -> truthy (o !! "_toUninstall") = false.
Proof.
  intros Hk. simpl in Hk.
  apply lookup_insert_Some in Hk as [[<- <-]|[_ Hk]]; [reflexivity|].
  by rewrite lookup_empty in Hk.
Qed.

Lemma workingState_plain (k : string) (o : Obj) :
  plugins workingState !! k = Some o -> o !! "subscribe" = None.
Proof.
  intros Hk. simpl in Hk.
  apply lookup_insert_Some in Hk as [[<- <-]|[_ Hk]]; [reflexivity|].
  by rewrite lookup_empty in Hk.
Qed.

Lemma activation_survives_reload_witness :
  exists σ2 active,
    (persistPlugins ;;; usePlugins "/app/plugins") workingState = (Ok tt, σ2) /\
    getActivePlugins σ2 = (Ok active, σ2) /\
    exists o' : Obj, o' ∈ active /\ toKey (o' !! "name") = "b".
Proof.
  destruct (activation_survives_reload workingState "/app/plugins" eq_refl)
    as (σ2 & active & Hrun & Hact & Hnames).
  - discriminate.
  - reflexivity.
  - exact workingState_keyed.
  - exact workingState_unmarked.
  - exact workingState_plain.
  - exists σ2, active. split; [exact Hrun|]. split; [exact Hact|].
    apply Hnames. exists working. split; reflexivity.
Defined.

Lemma newPlugin_default (k : string) :
  k <> "_listeners" ->
  newPlugin None !! k = None \/ exists j, newPlugin None !! k = Some (VJson j).
Proof.
  intros Hk. unfold newPlugin.
  destruct (decide (k = "_active")) as [->|H1].
  { right. eexists. apply lookup_insert_eq. }
  rewrite lookup_insert_ne by done.
  destruct (decide (k = "_toUninstall")) as [->|H2].
  { right. eexists. apply lookup_insert_eq. }
  rewrite lookup_insert_ne by done.
  left. by apply lookup_singleton_ne.
Qed.

Lemma rebuilt_idempotent (o : Obj) : rebuilt (rebuilt o) = rebuilt o.
Proof.
  apply map_eq. intros k.
  destruct (decide (k = "_listeners")) as [->|Hl].
  { destruct (rebuilt_ephemeral (rebuilt o)) as [-> _].
    by destruct (rebuilt_ephemeral o) as [-> _]. }
  destruct (decide (k = "dependencies")) as [->|Hd].
  { destruct (rebuilt_ephemeral (rebuilt o)) as [_ ->].
    by destruct (rebuilt_ephemeral o) as [_ ->]. }
  assert (Hstep : forall x : Obj,
             rebuilt x !! k = match toJson <$> x !! k with
                              | Some v => Some (VJson v)
                              | None => newPlugin None !! k
                              end).
  { intros x. unfold rebuilt. rewrite subscribe_lookup_ne by done.
    rewrite reconstruct_persistEntry, persistedFields_lookup.
    by rewrite bool_decide_eq_false_2 by tauto. }
  rewrite (Hstep (rebuilt o)), (Hstep o).
  destruct (o !! k) as [x|]; [done|].
  change (toJson <$> @None Value) with (@None Json). cbv iota.
  destruct (newPlugin_default k Hl) as [Hn|[j Hn]]; rewrite !Hn; done.
Qed.

(** X17.  Loading is stable.  For a register keyed by name with no record
    marked for removal or carrying a [subscribe] field of its own, and a
    registry file that can be written: after [persistPlugins] and a load, a
    second load from the same root gives the same register and leaves the same
    document in the registry file: what a load writes back is what the next
    load reads. *)
Theorem reload_is_stable (σ : State) (root : string) :
  pluginsPath σ = Some root ->
  root <> "" ->
  canWrite (pluginsFileOf root) (disk σ) = true ->
  keyedByName (plugins σ) ->
  (forall k o, plugins σ !! k = Some o -> truthy (o !! "_toUninstall") = false) ->
  (forall k o, plugins σ !! k = Some o -> o !! "subscribe" = None) ->
  exists σ2 σ3,
    (persistPlugins ;;; usePlugins root) σ = (Ok tt, σ2) /\
    usePlugins root σ2 = (Ok tt, σ3) /\
    plugins σ3 = plugins σ2 /\
    files (disk σ3) = files (disk σ2) /\
    folders (disk σ3) = folders (disk σ2).
Proof.
  intros Hroot Hne Hcan Hkeyed Hmark Hplain.
  set (σm := mkState (rebuilt <$> plugins σ) (confirmInstall σ) (Some root) (cwd σ)
               (written (pluginsFileOf root) (Doc (persistedDoc (plugins σ)))
                              (disk σ))
               (fetchPackage σ)).
  assert (Hagain : (persistPlugins ;;; usePlugins root) σm = (Ok tt, reloaded root σm)).
  { apply persist_then_load; [done|done|done|by apply rebuilt_keyed| |].
    - intros k o' Hk. simpl in Hk. rewrite lookup_fmap in Hk.
      destruct (plugins σ !! k) as [o|] eqn:Ho; [|done]. injection Hk as <-.
      rewrite rebuilt_flag by (by right). by eapply Hmark.
    - intros k o' Hk. simpl in Hk. rewrite lookup_fmap in Hk.
      destruct (plugins σ !! k) as [o|] eqn:Ho; [|done]. injection Hk as <-.
      apply rebuilt_subscribe. by eapply Hplain. }
  erewrite bind_ok in Hagain; [|by apply persistPlugins_ok].
  exists (reloaded root σ), (reloaded root σm).
  split; [by apply persist_then_load|]. split; [exact Hagain|].
  assert (Hreg : rebuilt <$> (rebuilt <$> plugins σ) = rebuilt <$> plugins σ).
  { rewrite <- map_fmap_compose. apply map_fmap_ext. intros k o _.
    apply rebuilt_idempotent. }
  unfold reloaded. simpl. rewrite Hreg.
  split; [done|]. split; [|done].
  by rewrite !insert_insert_eq.
Qed.

Lemma reload_is_stable_witness :
  exists σ2 σ3,
    (persistPlugins ;;; usePlugins "/app/plugins") workingState = (Ok tt, σ2) /\
    usePlugins "/app/plugins" σ2 = (Ok tt, σ3) /\
    plugins σ3 = plugins σ2 /\
    files (disk σ3) = files (disk σ2) /\
    folders (disk σ3) = folders (disk σ2).
Proof.
  apply (reload_is_stable workingState "/app/plugins" eq_refl).
  - discriminate.
  - reflexivity.
  - exact workingState_keyed.
  - exact workingState_unmarked.
  - exact workingState_plain.
Defined.

(** X18.  A load starts from nothing.  What [usePlugins] with a path returns
    and the state it ends in do not depend on what was registered before, as
    long as the register was keyed by name, nor on the root that was set
    before: two states that agree on the rest give the same result. *)
Theorem usePlugins_forgets_register (plgPath : string) (σa σb : State) :
  plgPath <> "" ->
  keyedByName (plugins σa) ->
  keyedByName (plugins σb) ->
  confirmInstall σa = confirmInstall σb ->
  cwd σa = cwd σb ->
  disk σa = disk σb ->
  fetchPackage σa = fetchPackage σb ->
  usePlugins plgPath σa = usePlugins plgPath σb.
Proof.
  intros Hne Ha Hb Hc Hw Hd Hf.
  rewrite !(usePlugins_to_file _ _ Hne).
  assert (Hreset : resetState plgPath σa = resetState plgPath σb).
  { unfold resetState. rewrite (cleared_keyed _ Ha), (cleared_keyed _ Hb).
    by rewrite Hc, Hw, Hd, Hf. }
  by rewrite Hreset, Hd.
Qed.

Lemma usePlugins_forgets_register_witness :
  usePlugins "/app/plugins" workingState = usePlugins "/app/plugins" installedState.
Proof.
  apply (usePlugins_forgets_register "/app/plugins" workingState installedState);
    try reflexivity.
  - discriminate.
  - exact workingState_keyed.
  - apply keyedByName_empty.
Defined.

(** ** Deferred removal, end to end *)

Lemma prefix_slash_noSlash (a b : string) :
  hasSlash b = false -> String.prefix (a +:+ "/") b = false.
Proof.
  revert b. induction a as [|x a IH]; intros b Hb.
  - change ("" +:+ "/") with "/".
    destruct b as [|c b]; [reflexivity|]. simpl in Hb.
    apply orb_false_elim in Hb as [Hc _].
    change (String.prefix "/" (String c b))
      with (if ascii_dec "/" c then String.prefix "" b else false).
    destruct (ascii_dec "/" c) as [<-|]; [discriminate Hc|reflexivity].
  - rewrite append_cons. destruct b as [|c b]; [reflexivity|]. simpl in Hb.
    apply orb_false_elim in Hb as [_ Hb]. simpl.
    destruct (ascii_dec x c); [by apply IH|reflexivity].
Qed.

Lemma endsWithSlash_child (root k : string) :
  properSegment k -> endsWithSlash (root +:+ "/" +:+ k) = false.
Proof.
  intros (Hs & Hne & _).
  rewrite endsWithSlash_append by (by rewrite append_cons).
  change ("/" +:+ k) with (String slash k). rewrite endsWithSlash_cons by done.
  by apply endsWithSlash_noSlash.
Qed.

(** The folders of two plugins with different plain names are apart. *)
Lemma under_sibling (root k k' : string) :
  properSegment k -> properSegment k' -> k <> k' ->
  under (root +:+ "/" +:+ k) (root +:+ "/" +:+ k') = false.
Proof.
  intros Hk (Hs & _) Hne. unfold under. rewrite (endsWithSlash_child root k Hk).
  apply orb_false_intro.
  - apply String.eqb_neq. intros Heq.
    apply (inj (String.append root)) in Heq.
    apply (inj (String.append "/")) in Heq. congruence.
  - rewrite !append_assoc, !prefix_append_same. by apply prefix_slash_noSlash.
Qed.

Lemma eqb_append_longer (a b : string) : b <> "" -> String.eqb a (a +:+ b) = false.
Proof.
  intros Hb. induction a as [|c a IH]; [by destruct b|].
  rewrite append_cons. simpl. by rewrite Ascii.eqb_refl.
Qed.

Lemma prefix_append_longer (a b : string) : b <> "" -> String.prefix (a +:+ b) a = false.
Proof.
  intros Hb. induction a as [|c a IH]; [by destruct b|].
  rewrite append_cons. simpl. by destruct (ascii_dec c c).
Qed.

(** The root is not below the folder of one of its plugins. *)
Lemma under_parent (root k : string) :
  properSegment k -> under (root +:+ "/" +:+ k) root = false.
Proof.
  intros Hk. unfold under. rewrite (endsWithSlash_child root k Hk).
  apply orb_false_intro.
  - apply eqb_append_longer. by rewrite append_cons.
  - rewrite append_assoc. apply prefix_append_longer. by rewrite append_cons.
Qed.

Lemma removedBy_root (root : string) (l : list (string * Json)) :
  (forall ke, ke ∈ l -> entryMarked ke.2 = true -> properSegment ke.1) ->
  removedBy root l root = false.
Proof.
  intros Hl. unfold removedBy.
  destruct (existsb _ l) eqn:E; [|done].
  apply existsb_exists in E as (ke & Hin & Hb).
  apply andb_true_iff in Hb as [Hm Hu].
  rewrite under_parent in Hu; [done|]. apply Hl; [by apply list_elem_of_In|done].
Qed.

(** The registry file of an absolute root in normal form, and the folder
    it is in. *)
Lemma pluginsFileOf_proper (rs : list string) :
  Forall properSegment rs -> rs <> [] ->
  pluginsFileOf ("/" +:+ join "/" rs) = "/" +:+ join "/" (rs ++ ["plugins.json"]) /\
  parentOf (pluginsFileOf ("/" +:+ join "/" rs)) = "/" +:+ join "/" rs.
Proof.
  intros Hrs Hne.
  assert (Hall : Forall properSegment (rs ++ ["plugins.json"])).
  { apply Forall_app. split; [done|]. repeat constructor; done. }
  assert (Hfile : pluginsFileOf ("/" +:+ join "/" rs)
                  = "/" +:+ join "/" (rs ++ ["plugins.json"])).
  { unfold pluginsFileOf.
    change (String.eqb ("/" +:+ join "/" rs) "") with false. cbv iota.
    rewrite append_assoc.
    change (join "/" rs +:+ "/" +:+ "plugins.json")
      with (join "/" rs +:+ "/" +:+ join "/" ["plugins.json"]).
    rewrite <- join_app by done.
    apply normalize_proper; [done|by destruct rs]. }
  split; [exact Hfile|]. rewrite Hfile. unfold parentOf.
  change (split_on slash ("/" +:+ join "/" (rs ++ ["plugins.json"])))
    with ("" :: split_on slash (join "/" (rs ++ ["plugins.json"]))).
  rewrite split_on_join;
    [|eapply Forall_impl; [exact Hall|by intros ? [? _]]|by destruct rs].
  change ("" :: rs ++ ["plugins.json"])%list with (("" :: rs) ++ ["plugins.json"])%list.
  rewrite removelast_last.
  destruct rs as [|r rs]; [done|]. rewrite join_cons2.
  change ("" +:+ "/" +:+ join "/" (r :: rs)) with ("/" +:+ join "/" (r :: rs)).
  reflexivity.
Qed.

Lemma entryMarked_persistEntry (o : Obj) :
  entryMarked (persistEntry o) = truthy (o !! "_toUninstall").
Proof.
  unfold entryMarked, persistEntry. fold (persistedFields o). simpl getProp.
  rewrite assoc_map_to_list, persistedFields_lookup.
  rewrite bool_decide_eq_false_2 by (intros [?|?]; discriminate).
  apply truthy_toJson.
Qed.

(** [loadPlugin] on what was written for a marked record with a plain name:
    the folder of that name under the root is removed. *)
Lemma loadPlugin_persistEntry_marked (o : Obj) (σ : State) (rs : list string) (k : string) :
  truthy (o !! "_toUninstall") = true ->
  o !! "name" = Some (VJson (JStr k)) ->
  pluginsPath σ = Some ("/" +:+ join "/" rs) ->
  Forall properSegment rs -> rs <> [] -> properSegment k ->
  loadPlugin (persistEntry o) σ
  = (let (r, fs) := rmdirSync (("/" +:+ join "/" rs) +:+ "/" +:+ k) (disk σ) in
     (r, withDisk fs σ)).
Proof.
  intros Hmark Hname Hroot Hrs Hne Hk.
  unfold loadPlugin, bind, liftRes. unfold persistEntry.
  fold (persistedFields o). simpl getProp. cbv iota beta.
  rewrite assoc_map_to_list, persistedFields_lookup.
  rewrite bool_decide_eq_false_2 by (intros [?|?]; discriminate).
  rewrite truthy_toJson, Hmark. cbv iota beta. simpl getProp. cbv iota beta.
  rewrite assoc_map_to_list, persistedFields_lookup.
  rewrite bool_decide_eq_false_2 by (intros [?|?]; discriminate).
  rewrite Hname, Hroot. simpl asString.
  by rewrite resolve_child.
Qed.

Lemma deferredLoop (reg : gmap string Obj) (rs : list string) (l : list (string * Json)) :
  let root := "/" +:+ join "/" rs in
  Forall properSegment rs -> rs <> [] ->
  keyedByName reg ->
  (forall k o, reg !! k = Some o -> truthy (o !! "_toUninstall") = true ->
     o !! "name" = Some (VJson (JStr k)) /\ properSegment k) ->
  (forall k o, reg !! k = Some o -> truthy (o !! "_toUninstall") = false ->
     o !! "subscribe" = None) ->
  NoDup l.*1 ->
  Forall (fun ke => exists o, reg !! ke.1 = Some o /\ ke.2 = persistEntry o) l ->
  forall s,
    pluginsPath s = Some root ->
    (forall ke, ke ∈ l -> entryMarked ke.2 = true ->
       (root +:+ "/" +:+ ke.1) ∈ folders (disk s)) ->
    exists s',
      forEach (fun entry : string * Json => loadPlugin entry.2) l s = (Ok tt, s') /\
      (forall k, plugins s' !! k
                 = match assoc k l with
                   | Some e => if entryMarked e then plugins s !! k
                               else Some (subscribe CbPersistPlugins (reconstruct e))
                   | None => plugins s !! k
                   end) /\
      (forall p, files (disk s') !! p
                 = if removedBy root l p then None else files (disk s) !! p) /\
      (forall p, p ∈ folders (disk s') <->
                 p ∈ folders (disk s) /\ removedBy root l p = false) /\
      writes (disk s') = writes (disk s) /\
      pluginsPath s' = Some root.
Proof.
  intros root Hrs Hrne Hkeyed Hnames Hplain Hnd Hl.
  induction Hl as [|[k e] l (o & Ho & He) Hl IH]; intros s Hroot Hfold.
  - exists s. split; [reflexivity|]. simpl.
    split; [done|]. split; [done|]. split; [tauto|done].
  - simpl in Ho, He. subst e.
    rewrite fmap_cons in Hnd. apply NoDup_cons in Hnd as [Hk Hnd]. simpl in Hk.
    destruct (truthy (o !! "_toUninstall")) eqn:Hmark.
    + (* marked: the folder goes *)
      destruct (Hnames k o Ho Hmark) as [Hname Hproper].
      assert (Hdir : (root +:+ "/" +:+ k) ∈ folders (disk s)).
      { apply (Hfold (k, persistEntry o)); [apply list_elem_of_here|].
        simpl. by rewrite entryMarked_persistEntry. }
      destruct (rmdirSync_folder _ _ Hdir) as (fs' & Hrm & Hw & Hgone & Hkept).
      destruct (IH Hnd (withDisk fs' s)) as (s' & Hrun & Hreg & Hfiles & Hfolders & Hws & Hpath).
      { exact Hroot. }
      { intros [k' e'] Hin Hm. simpl in *.
        apply Hkept.
        - rewrite Forall_forall in Hl. destruct (Hl _ Hin) as (o' & Ho' & He').
          simpl in Ho', He'. subst e'. rewrite entryMarked_persistEntry in Hm.
          apply under_sibling; [done|by apply (Hnames k' o')|].
          intros <-. apply Hk. apply list_elem_of_fmap. by exists (k, persistEntry o').
        - apply (Hfold (k', e')); [by apply list_elem_of_further|done]. }
      exists s'. split.
      { simpl. unfold bind at 1.
        rewrite (loadPlugin_persistEntry_marked o s rs k Hmark Hname Hroot Hrs Hrne Hproper).
        fold root. rewrite Hrm. exact Hrun. }
      split; [|split; [|split; [|split; [simpl in Hws; congruence|done]]]].
      * intros k0. rewrite Hreg. simpl.
        destruct (String.eqb k0 k) eqn:E.
        -- apply String.eqb_eq in E as ->.
           rewrite entryMarked_persistEntry, Hmark.
           by rewrite (assoc_absent k l Hk).
        -- done.
      * intros p. rewrite Hfiles. simpl.
        rewrite entryMarked_persistEntry, Hmark. simpl.
        destruct (under (root +:+ "/" +:+ k) p) eqn:Hu; simpl.
        -- destruct (Hgone p Hu) as [-> _]. by destruct (removedBy root l p).
        -- by destruct (Hkept p Hu) as [-> _].
      * intros p. rewrite Hfolders. simpl.
        rewrite entryMarked_persistEntry, Hmark. simpl.
        destruct (under (root +:+ "/" +:+ k) p) eqn:Hu; simpl.
        -- destruct (Hgone p Hu) as [_ Hn]. split; [tauto|]. intros [_ ?]. done.
        -- destruct (Hkept p Hu) as [_ ->]. done.
    + (* not marked: the record is rebuilt *)
      destruct (IH Hnd (withPlugins (insert (toKey (o !! "name")) (rebuilt o)) s))
        as (s' & Hrun & Hreg & Hfiles & Hfolders & Hws & Hpath).
      { exact Hroot. }
      { intros ke Hin Hm. simpl.
        apply (Hfold ke); [by apply list_elem_of_further|done]. }
      exists s'. split.
      { simpl. unfold bind at 1.
        rewrite (loadPlugin_persistEntry o s Hmark (Hplain _ _ Ho Hmark)).
        exact Hrun. }
      split; [|split; [|split; [|done]]].
      * intros k0. rewrite Hreg. simpl. rewrite (Hkeyed k o Ho).
        destruct (String.eqb k0 k) eqn:E.
        -- apply String.eqb_eq in E as ->.
           rewrite entryMarked_persistEntry, Hmark.
           rewrite (assoc_absent k l Hk). apply lookup_insert_eq.
        -- apply String.eqb_neq in E.
           rewrite lookup_insert_ne by done. done.
      * intros p. rewrite Hfiles. simpl.
        by rewrite entryMarked_persistEntry, Hmark.
      * intros p. rewrite Hfolders. simpl.
        by rewrite entryMarked_persistEntry, Hmark.
Qed.

(** X19.  Deferred removal, from mark to restart.  Take a register keyed by
    name under an absolute root in normal form whose registry file can be
    written, in which every record marked with [_toUninstall] has a plain
    name and its folder on disk, and no other record has a [subscribe] field
    of its own.  Then
    [persistPlugins] followed by a load from that root succeeds; afterwards
    the marked records are gone from the register, the others are rebuilt,
    the folders of the marked records are gone with everything below them,
    and the registry file holds the document of the new register. *)
Theorem deferred_removal (σ : State) (rs : list string) :
  let root := "/" +:+ join "/" rs in
  pluginsPath σ = Some root ->
  Forall properSegment rs -> rs <> [] ->
  canWrite (pluginsFileOf root) (disk σ) = true ->
  keyedByName (plugins σ) ->
  (forall k o, plugins σ !! k = Some o -> truthy (o !! "_toUninstall") = true ->
     o !! "name" = Some (VJson (JStr k)) /\ properSegment k /\
     (root +:+ "/" +:+ k) ∈ folders (disk σ)) ->
  (forall k o, plugins σ !! k = Some o -> truthy (o !! "_toUninstall") = false ->
     o !! "subscribe" = None) ->
  exists σ2,
    (persistPlugins ;;; usePlugins root) σ = (Ok tt, σ2) /\
    (forall k, plugins σ2 !! k
               = match plugins σ !! k with
                 | Some o => if truthy (o !! "_toUninstall") then None
                             else Some (rebuilt o)
                 | None => None
                 end) /\
    (forall k o p, plugins σ !! k = Some o -> truthy (o !! "_toUninstall") = true ->
       under (root +:+ "/" +:+ k) p = true ->
       (p ∉ folders (disk σ2)) /\
       (p <> pluginsFileOf root -> files (disk σ2) !! p = None)) /\
    files (disk σ2) !! pluginsFileOf root = Some (Doc (persistedDoc (plugins σ2))).
Proof.
  intros root Hroot Hrs Hrne Hcan Hkeyed Hmarked Hplain.
  assert (Hne : root <> "") by done.
  set (σ1 := withDisk (written (pluginsFileOf root) (Doc (persistedDoc (plugins σ)))
                                     (disk σ)) σ).
  set (l := map_to_list (persistEntry <$> plugins σ)).
  assert (Hl : Forall (fun ke => exists o, plugins σ !! ke.1 = Some o /\
                                           ke.2 = persistEntry o) l).
  { apply Forall_forall. intros [k e] Hin.
    apply elem_of_map_to_list in Hin. rewrite lookup_fmap in Hin.
    destruct (plugins σ !! k) as [o|] eqn:Ho; [|done].
    exists o. simpl in *. split; congruence. }
  destruct (deferredLoop (plugins σ) rs l Hrs Hrne Hkeyed) with (s := resetState root σ1)
    as (s' & Hrun & Hreg & Hfiles & Hfolders & Hws & Hpath).
  { intros k o Ho Hm. destruct (Hmarked k o Ho Hm) as (? & ? & _). done. }
  { exact Hplain. }
  { apply NoDup_fst_map_to_list. }
  { exact Hl. }
  { reflexivity. }
  { intros [k e] Hin Hm. rewrite Forall_forall in Hl.
    destruct (Hl _ Hin) as (o & Ho & He). simpl in *. subst e.
    rewrite entryMarked_persistEntry in Hm.
    by destruct (Hmarked k o Ho Hm) as (_ & _ & ?). }
  fold root in Hfiles, Hfolders.
  assert (Hcan' : canWrite (pluginsFileOf root) (disk s') = true).
  { unfold canWrite in *. apply andb_true_iff in Hcan as [Hfile Hparent].
    apply negb_true_iff, bool_decide_eq_false in Hfile.
    apply bool_decide_eq_true in Hparent.
    apply andb_true_iff. split.
    - apply negb_true_iff, bool_decide_eq_false. intros Hin.
      apply Hfolders in Hin as [Hin _]. by apply Hfile.
    - apply bool_decide_eq_true. apply Hfolders. split; [exact Hparent|].
      unfold root. rewrite (proj2 (pluginsFileOf_proper rs Hrs Hrne)). fold root.
      apply removedBy_root. intros [k e] Hin Hm. rewrite Forall_forall in Hl.
      destruct (Hl _ Hin) as (o & Ho & He). simpl in *. subst e.
      rewrite entryMarked_persistEntry in Hm.
      by destruct (Hmarked k o Ho Hm) as (_ & ? & _). }
  exists (withDisk (written (pluginsFileOf root) (Doc (persistedDoc (plugins s')))
                                  (disk s')) s').
  split; [|split; [|split]].
  - erewrite bind_ok; [|by apply persistPlugins_ok]. fold σ1.
    rewrite (usePlugins_unfold root σ1 (persistedDoc (plugins σ)) Hne)
      by apply lookup_insert_eq.
    unfold tryCatch. erewrite bind_ok; [|exact Hrun].
    by rewrite (persistPlugins_ok s' root Hpath Hcan').
  - intros k. simpl. rewrite Hreg. unfold l.
    rewrite assoc_map_to_list, lookup_fmap.
    simpl. rewrite (cleared_keyed _ Hkeyed), lookup_empty.
    destruct (plugins σ !! k) as [o|]; simpl; [|done].
    rewrite entryMarked_persistEntry. by destruct (truthy (o !! "_toUninstall")).
  - intros k o p Ho Hm Hu.
    assert (Hrem : removedBy root l p = true).
    { unfold removedBy. apply existsb_exists. exists (k, persistEntry o). split.
      - apply list_elem_of_In, elem_of_map_to_list. by rewrite lookup_fmap, Ho.
      - simpl. by rewrite entryMarked_persistEntry, Hm, Hu. }
    unfold withDisk, written. cbn [disk files folders]. split.
    + intros Hin. apply Hfolders in Hin as [_ Hin]. congruence.
    + intros Hp. rewrite lookup_insert_ne by done. by rewrite Hfiles, Hrem.
  - simpl. apply lookup_insert_eq.
Qed.

Lemma deferred_removal_witness :
  exists σ2,
    (persistPlugins ;;; usePlugins "/app/plugins") mixedState = (Ok tt, σ2) /\
    plugins σ2 !! "a" = None /\
    plugins σ2 !! "b" = Some (rebuilt working) /\
    ("/app/plugins/a" ∉ folders (disk σ2)) /\
    files (disk σ2) !! "/app/plugins/a/index.js" = None.
Proof.
  destruct (deferred_removal mixedState ["app"; "plugins"]) as (σ2 & Hrun & Hreg & Hgone & _).
  - reflexivity.
  - repeat constructor; done.
  - done.
  - reflexivity.
  - intros k o Hk. simpl in Hk.
    apply lookup_insert_Some in Hk as [[<- <-]|[_ Hk]]; [reflexivity|].
    apply lookup_insert_Some in Hk as [[<- <-]|[_ Hk]]; [reflexivity|].
    by rewrite lookup_empty in Hk.
  - intros k o Hk Hm. simpl in Hk.
    apply lookup_insert_Some in Hk as [[<- <-]|[_ Hk]].
    + split; [reflexivity|]. split; [repeat split; done|].
      apply elem_of_union_r, elem_of_singleton. reflexivity.
    + apply lookup_insert_Some in Hk as [[<- <-]|[_ Hk]]; [discriminate Hm|].
      by rewrite lookup_empty in Hk.
  - intros k o Hk Hm. simpl in Hk.
    apply lookup_insert_Some in Hk as [[<- <-]|[_ Hk]]; [discriminate Hm|].
    apply lookup_insert_Some in Hk as [[<- <-]|[_ Hk]]; [reflexivity|].
    by rewrite lookup_empty in Hk.
  - exists σ2. split; [exact Hrun|].
    split; [by rewrite Hreg|]. split; [by rewrite Hreg|].
    split.
    + apply (Hgone "a" doomedNamed "/app/plugins/a"); reflexivity.
    + apply (Hgone "a" doomedNamed "/app/plugins/a/index.js"); try reflexivity.
      discriminate.
Defined.

Lemma loadPlugin_throw_unchanged_witness :
  loadPlugin (JObj [("name", JStr "zz"); ("_toUninstall", JBool true)]) installedState
    = (Throw (SystemError "ENOENT"), installedState) /\
  loadPlugin JNull installedState
    = (Throw (TypeError "Cannot read properties of null"), installedState).
Proof.
  destruct (loadPlugin_throw_unchanged installedState) as (Hthrow & _ & Hnull).
  split; [|exact Hnull].
  destruct (Hthrow (JObj [("name", JStr "zz"); ("_toUninstall", JBool true)])
                   (SystemError "ENOENT")
                   (loadPlugin (JObj [("name", JStr "zz"); ("_toUninstall", JBool true)])
                               installedState).2 eq_refl) as [_ Hsame].
  rewrite <- (Hsame eq_refl) at 2. reflexivity.
Defined.

(** ** Removing an active plugin *)

(** X20.  In a register keyed by name, [removePlugin(name)] takes the plugin
    of that name, and no other, out of what [getActivePlugins] lists: the
    active plugins afterwards are the active plugins before whose name is
    not [name].  (With [persist] the registry file has to be one that can be
    written; otherwise [removePlugin] throws, after the deletion.) *)
Theorem removePlugin_then_getActivePlugins (name : string) (persist : bool) (σ : State) :
  keyedByName (plugins σ) ->
  (persist = true -> writable σ) ->
  exists σ' before after,
    getActivePlugins σ = (Ok before, σ) /\
    removePlugin name persist σ = (Ok true, σ') /\
    getActivePlugins σ' = (Ok after, σ') /\
    (forall o : Obj, o ∈ after <-> o ∈ before /\ toKey (o !! "name") <> name).
Proof.
  intros Hkeyed Hroot.
  assert (Hrun : exists σ', removePlugin name persist σ = (Ok true, σ') /\
                            plugins σ' = delete name (plugins σ)).
  { unfold removePlugin, jsDelete. destruct persist.
    - destruct Hroot as (root & Hroot & Hcan); [done|].
      eexists. split.
      + erewrite bind_ok; [reflexivity|]. by apply (persistPlugins_ok _ root).
      + reflexivity.
    - eexists. split; reflexivity. }
  destruct Hrun as (σ' & Hrun & Hreg).
  exists σ'. eexists _, _.
  split; [reflexivity|]. split; [exact Hrun|]. split; [reflexivity|].
  intros o. rewrite !list_elem_of_In, !filter_In, <- !list_elem_of_In.
  rewrite !elem_of_objectValues, Hreg. split.
  - intros [[k Hk] Hact]. apply lookup_delete_Some in Hk as [Hne Hk].
    split; [split; [by exists k|done]|].
    rewrite (Hkeyed _ _ Hk). congruence.
  - intros [[[k Hk] Hact] Hne]. split; [|done].
    exists k. apply lookup_delete_Some. split; [|done].
    rewrite <- (Hkeyed _ _ Hk). congruence.
Qed.

Lemma removePlugin_then_getActivePlugins_witness :
  exists σ' before after,
    getActivePlugins workingState = (Ok before, workingState) /\
    removePlugin "b" false workingState = (Ok true, σ') /\
    getActivePlugins σ' = (Ok after, σ') /\
    (forall o : Obj, o ∈ after <-> o ∈ before /\ toKey (o !! "name") <> "b").
Proof.
  apply (removePlugin_then_getActivePlugins "b" false workingState).
  - exact workingState_keyed.
  - discriminate.
Defined.
